(** * b0map: the MRD streaming callback of recipes/b0map/b0map.py

    A shallow embedding of [process] and [process_image].  Python values are
    modelled by value; the effects of the script (messages sent over the
    connection, files and folders written) are recorded in an explicit world
    that every statement threads, and a Python exception is the [Raise]
    outcome of a computation.

    The MRD SDK, NumPy, nibabel and the server's helper modules are not part
    of the script.  What the script needs from them is either written out
    here from their documented behaviour (array indexing, header fields, flag
    bits) or gathered in the [Platform] class, of which every definition and
    theorem is generic. *)

From Stdlib Require Import ZArith QArith Qround List String Bool Lia.
From stdpp Require Import base option list strings gmap pretty sorting.

Local Open Scope string_scope.
Local Open Scope list_scope.

(** ** Python exceptions

    Only exceptions deriving from [Exception] are modelled: they are the ones
    the stream, the SDK, NumPy and the interpreter raise synchronously. *)

Inductive exn :=
| ValueError (msg : string)
| TypeError (msg : string)
| NameError (name : string)
| AttributeError (msg : string)
| IndexError (msg : string)
| KeyError (key : string)
| ZeroDivisionError (msg : string)
| FileNotFoundError (path : string)
| LibraryError (cls msg : string).

(** The outcome of evaluating a Python expression or block. *)
Inductive py (A : Type) :=
| Return (a : A)
| Raise (e : exn).
Arguments Return {A} a.
Arguments Raise {A} e.

Definition py_bind {A B} (c : py A) (k : A → py B) : py B :=
  match c with
  | Return a => k a
  | Raise e => Raise e
  end.

Notation "x <~ c ;; k" := (py_bind c (fun x => k))
  (at level 100, c at next level, right associativity).

(** [l[i]] on a Python list. *)
Definition py_index {A} (l : list A) (i : nat) : py A :=
  match l !! i with
  | Some a => Return a
  | None => Raise (IndexError "list index out of range")
  end.

(** A list comprehension whose element expression may raise. *)
Fixpoint py_map {A B} (f : A → py B) (l : list A) : py (list B) :=
  match l with
  | [] => Return []
  | a :: l' => b <~ f a ;; bs <~ py_map f l' ;; Return (b :: bs)
  end.

(** A [for] loop over [l] updating the loop state [s]. *)
Fixpoint py_for {A S} (body : S → A → py S) (l : list A) (s : S) : py S :=
  match l with
  | [] => Return s
  | a :: l' => s' <~ body s a ;; py_for body l' s'
  end.

(** ** MetaAttributes and the JSON configuration *)

(** The values a [ismrmrd.Meta] dictionary holds in this script. *)
Inductive metaval :=
| MStr (s : string)
| MInt (z : Z)
| MList (l : list string).

Abbreviation Meta := (gmap string metaval).

Inductive json :=
| JStr (s : string)
| JBool (b : bool)
| JNum (z : Z).

(** [config]: the parsed JSON dictionary; [parameters] is [None] when the
    dictionary has no ['parameters'] key. *)
Record Config := { parameters : option (gmap string json) }.

(** ** What the script takes from its libraries *)

Class Platform := {
  (** a sample of an array, whatever its dtype *)
  scalar : Type;
  (** NumPy's conversion of one sample to a dtype, [ndarray.astype] *)
  astype_float64 : scalar → scalar;
  astype_int16 : scalar → scalar;
  (** [np.around] on one sample *)
  around1 : scalar → scalar;
  (** a Python float *)
  float : Type;
  (** the fields of an MRD image header that the script never names *)
  header_rest : Type;
  (** the header of [ismrmrd.Image()] before [setHead] *)
  float_zero : float;
  header_rest_init : header_rest;
  (** the XML text of [attribute_string] *)
  attr : Type;
  attr_empty : attr;
  Meta_deserialize : attr → py Meta;
  Meta_serialize : Meta → attr;
  (** ["{:.18f}".format(x)] *)
  format_18f : float → string;
  (** [base64.b64decode(v).decode('utf-8')] *)
  b64decode_utf8 : metaval → py string;
  (** [mrdhelper.extract_minihead_bool_param] *)
  extract_minihead_bool_param : string → string → option bool;
  (** [mrdhelper.get_json_config_param(config, key, default, type='bool')] *)
  get_json_config_param_bool : Config → string → bool → bool;
  (** [create_example_roi(img_size)], a list of formatted numbers *)
  create_example_roi : list nat → list string;
  (** [constants.MRD_LOGGING_ERROR] *)
  MRD_LOGGING_ERROR : Z;
  (** [traceback.format_exc()] while the exception is being handled *)
  format_exc : exn → string;
}.

(** ** NumPy arrays

    An array is its dtype, its shape and its samples by index; an index
    outside the array has no sample. *)

Module np.

Inductive dtype :=
| uint16 | int16 | uint32 | int32 | int64
| float32 | float64 | complex64 | complex128.

(** [np.promote_types] on the dtypes above. *)
Definition promote_types (a b : dtype) : dtype :=
  match a, b with
  | complex128, _ | _, complex128 => complex128
  | complex64, (float64 | uint32 | int32 | int64)
  | (float64 | uint32 | int32 | int64), complex64 => complex128
  | complex64, _ | _, complex64 => complex64
  | float64, _ | _, float64 => float64
  | float32, (uint32 | int32 | int64)
  | (uint32 | int32 | int64), float32 => float64
  | float32, _ | _, float32 => float32
  | int64, _ | _, int64 => int64
  | uint32, (int16 | int32) | (int16 | int32), uint32 => int64
  | uint32, _ | _, uint32 => uint32
  | int32, _ | _, int32 => int32
  | uint16, int16 | int16, uint16 => int32
  | uint16, uint16 => uint16
  | int16, int16 => int16
  end.

Section Arrays.
Context `{Platform}.

Record ndarray := {
  dtype_of : dtype;
  shape : list nat;
  getitem : list nat → option scalar;
}.

Definition ndim (a : ndarray) : nat := length (shape a).

(** [a.astype(np.float64)], [np.around(a)], [a.astype(np.int16)] *)
Definition astype_f64 (a : ndarray) : ndarray :=
  {| dtype_of := float64; shape := shape a;
     getitem := fun idx => astype_float64 <$> getitem a idx |}.

Definition around (a : ndarray) : ndarray :=
  {| dtype_of := dtype_of a; shape := shape a;
     getitem := fun idx => around1 <$> getitem a idx |}.

Definition astype_i16 (a : ndarray) : ndarray :=
  {| dtype_of := int16; shape := shape a;
     getitem := fun idx => astype_int16 <$> getitem a idx |}.

(** The position of axis [j] in [axes]. *)
Fixpoint index_of (j : nat) (axes : list nat) : option nat :=
  match axes with
  | [] => None
  | k :: axes' => if Nat.eqb k j then Some 0 else S <$> index_of j axes'
  end.

Definition is_permutation (axes : list nat) : bool :=
  forallb (fun j => match index_of j axes with Some _ => true | None => false end)
          (seq 0 (length axes)).

(** [a.transpose(axes)]: axis [k] of the result is axis [axes[k]] of [a], so
    the sample at [idx] is the sample of [a] whose coordinate on axis
    [axes[k]] is [idx[k]]. *)
Definition source_index (axes idx : list nat) : option (list nat) :=
  if Nat.eqb (length idx) (length axes) then
    mapM (fun j => k ← index_of j axes; idx !! k) (seq 0 (length axes))
  else None.

Definition transpose (axes : list nat) (a : ndarray) : py ndarray :=
  if Nat.eqb (length axes) (ndim a) && is_permutation axes then
    Return {| dtype_of := dtype_of a;
              shape := (fun k => nth k (shape a) 0) <$> axes;
              getitem := fun idx => src ← source_index axes idx; getitem a src |}
  else Raise (ValueError "axes don't match array").

(** [np.stack(arrays)]: a new leading axis over arrays of one shape.  The
    result has the promoted dtype; promotion among these dtypes keeps every
    sample's value. *)
Definition stack (arrays : list ndarray) : py ndarray :=
  match arrays with
  | [] => Raise (ValueError "need at least one array to stack")
  | a0 :: rest =>
      if forallb (fun a => bool_decide (shape a = shape a0)) rest then
        Return {| dtype_of := foldl promote_types (dtype_of a0) (dtype_of <$> rest);
                  shape := length arrays :: shape a0;
                  getitem := fun idx =>
                    match idx with
                    | [] => None
                    | i :: idx' => a ← arrays !! i; getitem a idx'
                    end |}
      else Raise (ValueError "all input arrays must have the same shape")
  end.

(** [a[..., i]] *)
Definition index_last (a : ndarray) (i : nat) : py ndarray :=
  match reverse (shape a) with
  | [] => Raise (IndexError "too many indices for array")
  | n :: front =>
      if Nat.ltb i n then
        Return {| dtype_of := dtype_of a;
                  shape := reverse front;
                  getitem := fun idx => getitem a (idx ++ [i]) |}
      else Raise (IndexError "index is out of bounds")
  end.

(** [a.shape[-1]] *)
Definition shape_last (a : ndarray) : py nat :=
  match reverse (shape a) with
  | [] => Raise (IndexError "tuple index out of range")
  | n :: _ => Return n
  end.

(** [np.concatenate(arrays, 1)]: arrays of one number of axes, at least
    two, that agree on every axis but the second. *)
Definition same_off_axis1 (a b : ndarray) : bool :=
  bool_decide (take 1 (shape a) = take 1 (shape b)) &&
  bool_decide (drop 2 (shape a) = drop 2 (shape b)) &&
  Nat.eqb (ndim a) (ndim b).

Fixpoint locate (arrays : list ndarray) (j : nat) : option (ndarray * nat) :=
  match arrays with
  | [] => None
  | a :: arrays' =>
      let n := nth 1 (shape a) 0 in
      if Nat.ltb j n then Some (a, j) else locate arrays' (j - n)
  end.

Definition concatenate1 (arrays : list ndarray) : py ndarray :=
  match arrays with
  | [] => Raise (ValueError "need at least one array to concatenate")
  | a0 :: rest =>
      if Nat.ltb (ndim a0) 2 then
        Raise (ValueError "axis 1 is out of bounds")
      else if forallb (same_off_axis1 a0) rest then
        Return {| dtype_of := foldl promote_types (dtype_of a0) (dtype_of <$> rest);
                  shape := take 1 (shape a0)
                           ++ [foldr Nat.add 0 ((fun a => nth 1 (shape a) 0) <$> arrays)]
                           ++ drop 2 (shape a0);
                  getitem := fun idx =>
                    match idx with
                    | i :: j :: idx' =>
                        '(a, j') ← locate arrays j; getitem a (i :: j' :: idx')
                    | _ => None
                    end |}
      else Raise (ValueError "all the input array dimensions except for the concatenation axis must match exactly")
  end.

End Arrays.
End np.

(** ** The MRD SDK: constants, acquisitions, images, waveforms *)

Module ismrmrd.

(** Acquisition flags; flag [f] is bit [f - 1] of the flags word. *)
Definition ACQ_LAST_IN_SLICE : Z := 8.
Definition ACQ_IS_NOISE_MEASUREMENT : Z := 19.
Definition ACQ_IS_PARALLEL_CALIBRATION : Z := 20.
Definition ACQ_IS_NAVIGATION_DATA : Z := 23.
Definition ACQ_IS_PHASECORR_DATA : Z := 24.

Definition DATATYPE_USHORT : Z := 1.
Definition DATATYPE_SHORT : Z := 2.
Definition DATATYPE_UINT : Z := 3.
Definition DATATYPE_INT : Z := 4.
Definition DATATYPE_FLOAT : Z := 5.
Definition DATATYPE_DOUBLE : Z := 6.
Definition DATATYPE_CXFLOAT : Z := 7.
Definition DATATYPE_CXDOUBLE : Z := 8.

Definition IMTYPE_COMPLEX : Z := 5.

Definition get_data_type_from_dtype (d : np.dtype) : py Z :=
  match d with
  | np.uint16 => Return DATATYPE_USHORT
  | np.int16 => Return DATATYPE_SHORT
  | np.uint32 => Return DATATYPE_UINT
  | np.int32 => Return DATATYPE_INT
  | np.float32 => Return DATATYPE_FLOAT
  | np.float64 => Return DATATYPE_DOUBLE
  | np.complex64 => Return DATATYPE_CXFLOAT
  | np.complex128 => Return DATATYPE_CXDOUBLE
  | np.int64 => Raise (TypeError "Unsupported data type")
  end.

Definition get_dtype_from_data_type (t : Z) : py np.dtype :=
  if Z.eqb t DATATYPE_USHORT then Return np.uint16
  else if Z.eqb t DATATYPE_SHORT then Return np.int16
  else if Z.eqb t DATATYPE_UINT then Return np.uint32
  else if Z.eqb t DATATYPE_INT then Return np.int32
  else if Z.eqb t DATATYPE_FLOAT then Return np.float32
  else if Z.eqb t DATATYPE_DOUBLE then Return np.float64
  else if Z.eqb t DATATYPE_CXFLOAT then Return np.complex64
  else if Z.eqb t DATATYPE_CXDOUBLE then Return np.complex128
  else Raise (TypeError "Unknown data type").

(** An acquisition, as far as [process] looks at it. *)
Record Acquisition := {
  flags : Z;
  scan_counter : Z;
}.

Definition is_flag_set (a : Acquisition) (f : Z) : bool :=
  Z.testbit (flags a) (f - 1).

Section Messages.
Context `{Platform}.

Record ImageHeader := {
  data_type : Z;
  image_type : Z;
  image_series_index : Z;
  read_dir : float * float * float;
  phase_dir : float * float * float;
  rest : header_rest;
}.

Definition set_data_type (t : Z) (h : ImageHeader) : ImageHeader :=
  {| data_type := t; image_type := image_type h;
     image_series_index := image_series_index h;
     read_dir := read_dir h; phase_dir := phase_dir h; rest := rest h |}.

Definition set_image_type (t : Z) (h : ImageHeader) : ImageHeader :=
  {| data_type := data_type h; image_type := t;
     image_series_index := image_series_index h;
     read_dir := read_dir h; phase_dir := phase_dir h; rest := rest h |}.

Definition set_image_series_index (i : Z) (h : ImageHeader) : ImageHeader :=
  {| data_type := data_type h; image_type := image_type h;
     image_series_index := i;
     read_dir := read_dir h; phase_dir := phase_dir h; rest := rest h |}.

(** An image: its fixed header, its samples in the order [cha z y x] and
    the XML text of its MetaAttributes. *)
Record Image := {
  head : ImageHeader;
  data : np.ndarray;
  attribute_string : attr;
}.

(** [img.getHead()] hands out a copy of the header. *)
Definition getHead (img : Image) : ImageHeader := head img.

(** [img.setHead(h)]; the samples stay, the header of the caller agreeing
    with them in type and size. *)
Definition setHead (h : ImageHeader) (img : Image) : Image :=
  {| head := h; data := data img; attribute_string := attribute_string img |}.

Definition set_attribute_string (s : attr) (img : Image) : Image :=
  {| head := head img; data := data img; attribute_string := s |}.

Definition header_init (t : Z) : ImageHeader :=
  {| data_type := t; image_type := 0; image_series_index := 0;
     read_dir := (float_zero, float_zero, float_zero);
     phase_dir := (float_zero, float_zero, float_zero);
     rest := header_rest_init |}.

(** [Image.from_array(a, transpose=False)] takes [cha z y x], [z y x] or
    [y x]; the missing leading axes have length one. *)
Definition lead (n : nat) (a : np.ndarray) : np.ndarray :=
  {| np.dtype_of := np.dtype_of a;
     np.shape := replicate n 1 ++ np.shape a;
     np.getitem := fun idx =>
       if bool_decide (take n idx = replicate n 0)
       then np.getitem a (drop n idx) else None |}.

Definition from_array (a : np.ndarray) : py Image :=
  t <~ get_data_type_from_dtype (np.dtype_of a) ;;
  match np.ndim a with
  | 4 => Return {| head := header_init t; data := a; attribute_string := attr_empty |}
  | 3 => Return {| head := header_init t; data := lead 1 a; attribute_string := attr_empty |}
  | 2 => Return {| head := header_init t; data := lead 2 a; attribute_string := attr_empty |}
  | _ => Raise (ValueError "array must be 2, 3 or 4 dimensional")
  end.

Record Waveform := {
  time_stamp : Z;
  waveform_id : Z;
  wdata : np.ndarray;
}.

End Messages.
End ismrmrd.

(** [mrdhelper.get_meta_value(meta, key)]: the value, [None] when absent. *)
Definition get_meta_value (m : Meta) (key : string) : option metaval := m !! key.

(** ** The MRD header handed to the callback *)

Section Header.
Context `{Platform}.

(** One encoding; the triples are [(x, y, z)]. *)
Record Encoding := {
  fieldOfView_mm : float * float * float;
  matrixSize : Z * Z * Z;
}.

(** The header is the parsed XML, or the raw text when parsing failed. *)
Inductive MrdHeader :=
| HeaderXml (encoding : list Encoding)
| HeaderText (text : string).

(** [x / n] for a float [x] and an int [n]; only whether it raises is kept. *)
Definition truediv (x : float) (n : Z) : py unit :=
  if Z.eqb n 0 then Raise (ZeroDivisionError "float division by zero")
  else Return tt.

End Header.

#[global] Instance json_eq_dec : EqDecision json.
Proof. solve_decision. Defined.

(** ** The world of the callback *)

Section B0map.
Context `{Platform}.
Import ismrmrd.

(** What the callback does to its surroundings, in the order it does it. *)
Inductive event :=
| Makedirs (path : string)
| NibSave (path : string) (a : np.ndarray)
| SubprocessRun (argv : list string)
| SendImage (images : list (option Image))
| SendLogging (level : Z) (msg : string)
| SendClose.

(** The paths that exist and the events so far. *)
Record world := {
  fs : list string;
  events : list event;
}.

(** A block of statements: it changes the world and returns or raises. *)
Definition M (A : Type) : Type := world → world * py A.

Definition m_ret {A} (a : A) : M A := fun w => (w, Return a).

Definition m_bind {A B} (c : M A) (k : A → M B) : M B :=
  fun w =>
    match c w with
    | (w', Return a) => k a w'
    | (w', Raise e) => (w', Raise e)
    end.

Definition lift {A} (c : py A) : M A := fun w => (w, c).

Notation "x <- c ;; k" := (m_bind c (fun x => k))
  (at level 100, c at next level, right associativity).

Definition emit (e : event) : M unit :=
  fun w => ({| fs := fs w; events := events w ++ [e] |}, Return tt).

(** [os.path.exists], [os.makedirs], [nib.save]: a file is written into a
    folder that exists. *)
Definition os_path_exists (p : string) : M bool :=
  fun w => (w, Return (bool_decide (p ∈ fs w))).

Definition os_makedirs (p : string) : M unit :=
  fun w => ({| fs := fs w ++ [p]; events := events w ++ [Makedirs p] |}, Return tt).

Definition nib_save (a : np.ndarray) (folder name : string) : M unit :=
  fun w =>
    let path := folder +:+ "/" +:+ name in
    if bool_decide (folder ∈ fs w) then
      ({| fs := fs w ++ [path]; events := events w ++ [NibSave path a] |}, Return tt)
    else (w, Raise (FileNotFoundError path)).

(** The connection's three sends. *)
Definition send_image (images : list (option Image)) : M unit := emit (SendImage images).
Definition send_logging (level : Z) (msg : string) : M unit := emit (SendLogging level msg).
Definition send_close : M unit := emit SendClose.

(** ** process_image *)

Definition debugFolder : string := "/tmp/share/debug".

Definition BitsStored : Z := 12.
Definition maxVal : Z := 2 ^ BitsStored - 1.

(** [str(n / 2)] for an int [n] from [0] to [2**53]: the quotient is exact
    and prints with one decimal. *)
Definition str_half (n : Z) : string :=
  pretty (n `div` 2)%Z +:+ (if Z.even n then ".0" else ".5").

(** [str(n)] for an int. *)
Definition str_int (n : Z) : string := pretty n.

(** [mrdHeader.sequenceParameters], read for [TR] and [flipAngle_deg]. *)
Definition sequence_parameters (mrdHeader : MrdHeader) : py unit :=
  match mrdHeader with
  | HeaderXml _ => Return tt
  | HeaderText _ => Raise (AttributeError "'str' object has no attribute 'sequenceParameters'")
  end.

(** Lines 219-223; the three quotients are dropped. *)
Definition voxel_sizes (mrdHeader : MrdHeader) : py unit :=
  match mrdHeader with
  | HeaderText _ => Raise (AttributeError "'str' object has no attribute 'encoding'")
  | HeaderXml encoding =>
      e <~ py_index encoding 0 ;;
      let '(fx, fy, fz) := fieldOfView_mm e in
      let '(mx, my, mz) := matrixSize e in
      _ <~ truediv fy my ;;
      _ <~ truediv fx mx ;;
      truediv fz mz
  end.

(** Lines 339-344. *)
Definition update_header (out : Image) (oldHeader : ImageHeader) : ImageHeader :=
  let oldHeader := set_data_type (data_type (head out)) oldHeader in
  if Z.eqb (data_type (head out)) DATATYPE_CXFLOAT
     || Z.eqb (data_type (head out)) DATATYPE_CXDOUBLE
  then set_image_type IMTYPE_COMPLEX oldHeader
  else oldHeader.

(** Lines 350-352. *)
Definition series_end (m : Meta) (currentSeries : Z) : py Z :=
  match get_meta_value m "IceMiniHead" with
  | Some v =>
      s <~ b64decode_utf8 v ;;
      match extract_minihead_bool_param s "BIsSeriesEnd" with
      | Some true => Return (currentSeries + 1)%Z
      | _ => Return currentSeries
      end
  | None => Return currentSeries
  end.

Definition dir_strings (d : float * float * float) : metaval :=
  let '(d0, d1, d2) := d in
  MList [format_18f d0; format_18f d1; format_18f d2].

(** Lines 357-381. *)
Definition update_meta (config : Config) (data_shape : list nat)
    (oldHeader : ImageHeader) (m : Meta) : Meta :=
  let tmpMeta := <["DataRole" := MStr "Image"]> m in
  let tmpMeta := <["ImageProcessingHistory" := MList ["PYTHON"; "AFIB1"]]> tmpMeta in
  let tmpMeta := <["WindowCenter" := MStr (str_half (maxVal + 1))]> tmpMeta in
  let tmpMeta := <["WindowWidth" := MStr (str_int (maxVal + 1))]> tmpMeta in
  let tmpMeta := <["SequenceDescriptionAdditional" := MStr "AFI B1+ Map"]> tmpMeta in
  let tmpMeta := <["Keep_image_geometry" := MInt 1]> tmpMeta in
  let tmpMeta :=
    match parameters config with
    | Some p =>
        match p !! "options" with
        | Some options =>
            let tmpMeta :=
              if bool_decide (options = JStr "roi")
              then <["ROI_example" := MList (create_example_roi data_shape)]> tmpMeta
              else tmpMeta in
            if bool_decide (options = JStr "colormap")
            then <["LUTFileName" := MStr "MicroDeltaHotMetal.pal"]> tmpMeta
            else tmpMeta
        | None => tmpMeta
        end
    | None => tmpMeta
    end in
  let tmpMeta :=
    match tmpMeta !! "ImageRowDir" with
    | None => <["ImageRowDir" := dir_strings (read_dir oldHeader)]> tmpMeta
    | Some _ => tmpMeta
    end in
  match tmpMeta !! "ImageColumnDir" with
  | None => <["ImageColumnDir" := dir_strings (phase_dir oldHeader)]> tmpMeta
  | Some _ => tmpMeta
  end.

(** The body of the re-slicing loop, lines 331-387; the loop state is
    [imagesOut] and [currentSeries]. *)
Definition reslice (data : np.ndarray) (head : list ImageHeader) (meta : list Meta)
    (config : Config) (st : list (option Image) * Z) (iImg : nat)
    : py (list (option Image) * Z) :=
  let '(imagesOut, currentSeries) := st in
  slice <~ np.index_last data iImg ;;
  slice <~ np.transpose [3; 2; 0; 1] slice ;;
  out <~ from_array slice ;;
  oldHeader <~ py_index head iImg ;;
  let oldHeader := update_header out oldHeader in
  m <~ py_index meta iImg ;;
  currentSeries <~ series_end m currentSeries ;;
  let out := setHead oldHeader out in
  let tmpMeta := update_meta config (np.shape data) oldHeader m in
  let metaXml := Meta_serialize tmpMeta in
  let out := set_attribute_string metaXml out in
  Return (<[iImg := Some out]> imagesOut, currentSeries).

(** Lines 397-409 for one image. *)
Definition original (image : Image) : py Image :=
  let tmpImg := setHead (set_image_series_index 99 (head image)) image in
  tmpMeta <~ Meta_deserialize (attribute_string tmpImg) ;;
  let tmpMeta := <["Keep_image_geometry" := MInt 1]> tmpMeta in
  Return (set_attribute_string (Meta_serialize tmpMeta) tmpImg).

Definition send_originals (imgGroup : list Image) (imagesOut : list (option Image))
    : py (list (option Image)) :=
  py_for (fun imagesOut image =>
            tmpImg <~ original image ;;
            Return (Some tmpImg :: imagesOut))
         (reverse imgGroup) imagesOut.

(** [process_image], lines 149-411.  [caller] is the name that
    [traceback.extract_stack()[-2].name] finds.  The logging calls are left
    out, but for the arguments of theirs that can raise (lines 163 and 186);
    the configuration parameters that are read and not used are left out
    too. *)
Definition process_image (caller : string) (imgGroup : list Image)
    (config : Config) (mrdHeader : MrdHeader) : M (list (option Image)) :=
  if Nat.eqb (length imgGroup) 0 then m_ret []
  else
    there <- os_path_exists debugFolder ;;
    _ <- (if there : bool then m_ret tt else os_makedirs debugFolder) ;;
    _ <- lift (img0 <~ py_index imgGroup 0 ;;
               get_dtype_from_data_type (data_type (head img0))) ;;
    data <- lift (np.stack (ismrmrd.data <$> imgGroup)) ;;
    let head := getHead <$> imgGroup in
    meta <- lift (py_map (fun img => Meta_deserialize (attribute_string img)) imgGroup) ;;
    data <- lift (np.transpose [3; 4; 0; 1; 2] data) ;;
    _ <- lift (meta0 <~ py_index meta 0 ;;
               match meta0 !! "IceMiniHead" with
               | Some v => _ <~ b64decode_utf8 v ;; Return tt
               | None => Return tt
               end) ;;
    _ <- lift (sequence_parameters mrdHeader) ;;
    let opre_sendoriginal := get_json_config_param_bool config "sendoriginal" false in
    _ <- lift (voxel_sizes mrdHeader) ;;
    _ <- nib_save data "/buildhostdirectory" "test.nii" ;;
    data <- lift (np.transpose [0; 1; 4; 3; 2] data) ;;
    let data := np.astype_f64 data in
    let data := np.around data in
    let data := np.astype_i16 data in
    n <- lift (np.shape_last data) ;;
    let imagesOut := replicate n None in
    st <- lift (py_for (reslice data head meta config) (seq 0 n) (imagesOut, 0%Z)) ;;
    let imagesOut := fst st in
    if opre_sendoriginal then
      if String.eqb caller "process_raw" then m_ret imagesOut
      else lift (send_originals imgGroup imagesOut)
    else m_ret imagesOut.

(** ** process *)

(** What the connection yields. *)
Inductive item :=
| ItemAcquisition (a : Acquisition)
| ItemImage (img : Image)
| ItemWaveform (wav : Waveform)
| ItemNone
| ItemOther (type_name : string).

(** The three groups of [process]. *)
Record groups := {
  acqGroup : list Acquisition;
  imgGroup : list Image;
  waveformGroup : list Waveform;
}.

Definition no_groups : groups :=
  {| acqGroup := []; imgGroup := []; waveformGroup := [] |}.

(** The script calls [process_raw] at lines 69 and 129 and binds the name
    nowhere, neither by a [def] nor by an import: looking the name up
    raises [NameError] before any argument is passed. *)
Definition process_raw (acqGroup : list Acquisition) (config : Config)
    (mrdHeader : MrdHeader) : M (list (option Image)) :=
  lift (Raise (NameError "process_raw")).

(** The condition of lines 59-62. *)
Definition is_imaging (a : Acquisition) : bool :=
  negb (is_flag_set a ACQ_IS_NOISE_MEASUREMENT) &&
  negb (is_flag_set a ACQ_IS_PARALLEL_CALIBRATION) &&
  negb (is_flag_set a ACQ_IS_PHASECORR_DATA) &&
  negb (is_flag_set a ACQ_IS_NAVIGATION_DATA).

(** How one pass through the loop body ends. *)
Inductive control :=
| Continue
| Break
| Raised (e : exn).

(** The loop body, lines 57-112.  The groups are returned on every exit,
    the raising one too: [append] has happened by then. *)
Definition loop_body (config : Config) (mrdHeader : MrdHeader) (g : groups)
    (it : item) (w : world) : world * (groups * control) :=
  match it with
  | ItemAcquisition a =>
      let g :=
        if is_imaging a
        then {| acqGroup := acqGroup g ++ [a]; imgGroup := imgGroup g;
                waveformGroup := waveformGroup g |}
        else g in
      if is_flag_set a ACQ_LAST_IN_SLICE then
        match (image <- process_raw (acqGroup g) config mrdHeader ;;
               send_image image) w with
        | (w', Return _) =>
            (w', ({| acqGroup := []; imgGroup := imgGroup g;
                     waveformGroup := waveformGroup g |}, Continue))
        | (w', Raise e) => (w', (g, Raised e))
        end
      else (w, (g, Continue))
  | ItemImage img =>
      (w, ({| acqGroup := acqGroup g; imgGroup := imgGroup g ++ [img];
              waveformGroup := waveformGroup g |}, Continue))
  | ItemWaveform wav =>
      (w, ({| acqGroup := acqGroup g; imgGroup := imgGroup g;
              waveformGroup := waveformGroup g ++ [wav] |}, Continue))
  | ItemNone => (w, (g, Break))
  | ItemOther _ => (w, (g, Continue))
  end.

(** [for item in connection]: the stream lists what each step of the
    iterator does, yield an item or raise; the loop ends when the stream is
    exhausted. *)
Fixpoint receive (config : Config) (mrdHeader : MrdHeader)
    (stream : list (py item)) (g : groups) (w : world) : world * (groups * py unit) :=
  match stream with
  | [] => (w, (g, Return tt))
  | Raise e :: _ => (w, (g, Raise e))
  | Return it :: stream' =>
      match loop_body config mrdHeader g it w with
      | (w', (g', Continue)) => receive config mrdHeader stream' g' w'
      | (w', (g', Break)) => (w', (g', Return tt))
      | (w', (g', Raised e)) => (w', (g', Raise e))
      end
  end.

(** [list.sort(key = time_stamp)], which is stable. *)
Fixpoint insert_by_time (wav : Waveform) (sorted : list Waveform) : list Waveform :=
  match sorted with
  | [] => [wav]
  | x :: sorted' =>
      if Z.leb (time_stamp wav) (time_stamp x) then wav :: sorted
      else x :: insert_by_time wav sorted'
  end.

Definition sort_by_time (l : list Waveform) : list Waveform :=
  foldr insert_by_time [] l.

(** Lines 117-121. *)
Definition ecg (waveformGroup : list Waveform) : py unit :=
  if Nat.ltb 0 (length waveformGroup) then
    let waveformGroup := sort_by_time waveformGroup in
    let ecgData :=
      wdata <$> filter (fun wav => waveform_id wav = 0%Z) waveformGroup in
    if Nat.ltb 0 (length ecgData)
    then _ <~ np.concatenate1 ecgData ;; Return tt
    else Return tt
  else Return tt.

(** Lines 117-139, after the loop. *)
Definition flush (config : Config) (mrdHeader : MrdHeader) (g : groups) : M unit :=
  _ <- lift (ecg (waveformGroup g)) ;;
  _ <- (if Nat.ltb 0 (length (acqGroup g)) then
          image <- process_raw (acqGroup g) config mrdHeader ;;
          send_image image
        else m_ret tt) ;;
  if Nat.ltb 0 (length (imgGroup g)) then
    image <- process_image "process" (imgGroup g) config mrdHeader ;;
    send_image image
  else m_ret tt.

(** The [try] block, lines 53-139. *)
Definition try_block (config : Config) (mrdHeader : MrdHeader)
    (stream : list (py item)) : M unit :=
  fun w =>
    match receive config mrdHeader stream no_groups w with
    | (w', (g, Return _)) => flush config mrdHeader g w'
    | (w', (_, Raise e)) => (w', Raise e)
    end.

(** [process], lines 24-146.  Lines 25-45 only log, inside a [try] whose
    [except] swallows everything; what is left is
    [try: ... except Exception: ... finally: ...]. *)
Definition process (stream : list (py item)) (config : Config)
    (mrdHeader : MrdHeader) : M unit :=
  fun w =>
    let '(w, r) := try_block config mrdHeader stream w in
    let '(w, r) :=
      match r with
      | Return _ => (w, Return tt)
      | Raise e => send_logging MRD_LOGGING_ERROR (format_exc e) w
      end in
    match send_close w with
    | (w, Return _) => (w, r)
    | (w, Raise e) => (w, Raise e)
    end.

End B0map.

(** ** A platform to run the callback on

    Samples are rationals: the conversion to [float64] keeps them, [around]
    rounds to the nearest integer and a half to the even one, and the
    conversion to [int16] truncates and wraps.  Python floats are whole
    numbers and the XML text of a Meta container is the container itself. *)

Module Sample.

Definition round_half_even (q : Q) : Q :=
  let f := Qfloor q in
  match (q - inject_Z f ?= 1 # 2)%Q with
  | Lt => inject_Z f
  | Gt => inject_Z (f + 1)
  | Eq => inject_Z (if Z.even f then f else f + 1)
  end.

Definition wrap_int16 (q : Q) : Q :=
  inject_Z ((Z.quot (Qnum q) (Zpos (Qden q)) + 32768) `mod` 65536 - 32768).

Definition exn_name (e : exn) : string :=
  match e with
  | ValueError m => "ValueError: " +:+ m
  | TypeError m => "TypeError: " +:+ m
  | NameError n => "NameError: name '" +:+ n +:+ "' is not defined"
  | AttributeError m => "AttributeError: " +:+ m
  | IndexError m => "IndexError: " +:+ m
  | KeyError k => "KeyError: '" +:+ k +:+ "'"
  | ZeroDivisionError m => "ZeroDivisionError: " +:+ m
  | FileNotFoundError p => "FileNotFoundError: " +:+ p
  | LibraryError c m => c +:+ ": " +:+ m
  end.

Definition config_bool (config : Config) (key : string) (default : bool) : bool :=
  match parameters config with
  | Some p =>
      match p !! key with
      | Some (JBool b) => b
      | Some (JStr s) => String.eqb s "true"
      | Some (JNum z) => negb (Z.eqb z 0)
      | None => default
      end
  | None => default
  end.

#[global] Instance platform : Platform := {|
  scalar := Q;
  astype_float64 := fun q => q;
  astype_int16 := wrap_int16;
  around1 := round_half_even;
  float := Z;
  header_rest := Z;
  float_zero := 0%Z;
  header_rest_init := 0%Z;
  attr := Meta;
  attr_empty := ∅;
  Meta_deserialize := fun m => Return m;
  Meta_serialize := fun m => m;
  format_18f := fun z => pretty z +:+ ".000000000000000000";
  b64decode_utf8 := fun v =>
    match v with
    | MStr s => Return s
    | _ => Raise (TypeError "argument should be a bytes-like object or ASCII string")
    end;
  extract_minihead_bool_param := fun _ _ => None;
  get_json_config_param_bool := config_bool;
  create_example_roi := fun _ => [];
  MRD_LOGGING_ERROR := 3%Z;
  format_exc := exn_name;
|}.

Import ismrmrd.

(** A 1 x 1 x 2 x 2 image of the given dtype holding [(s + 2*y + x) / 2]. *)
Definition pixels (d : np.dtype) (s : Z) : np.ndarray :=
  {| np.dtype_of := d;
     np.shape := [1; 1; 2; 2];
     np.getitem := fun idx =>
       match idx with
       | [0; 0; y; x] =>
           if Nat.ltb y 2 && Nat.ltb x 2
           then Some ((s + 2 * Z.of_nat y + Z.of_nat x) # 2) else None
       | _ => None
       end |}.

Definition image (d : np.dtype) (t series s : Z) : Image :=
  {| head := {| data_type := t; image_type := 1; image_series_index := series;
                read_dir := (1, 0, 0)%Z; phase_dir := (0, 1, 0)%Z; rest := s |};
     data := pixels d s;
     attribute_string := {[ "ImageRowDir" := MList ["1"; "0"; "0"] ]} |}.

Definition magnitude : Image := image np.float32 DATATYPE_FLOAT 1 100.
Definition phase : Image := image np.float32 DATATYPE_FLOAT 2 200.

Definition header : MrdHeader :=
  HeaderXml [ {| fieldOfView_mm := (256, 256, 5)%Z; matrixSize := (2, 2, 1)%Z |} ].

Definition plain : Config := {| parameters := None |}.
Definition with_originals : Config :=
  {| parameters := Some {[ "sendoriginal" := JBool true ]} |}.

(** The build host's folder is there, the debug folder is not. *)
Definition host : world := {| fs := ["/buildhostdirectory"]; events := [] |}.

(** Two calls of [process_image] from [process], without and with the
    originals, and what a call returned. *)
Definition derive_run : world * py (list (option Image)) :=
  process_image "process" [magnitude; phase] plain header host.

Definition originals_run : world * py (list (option Image)) :=
  process_image "process" [magnitude; phase] with_originals header host.

Definition returned (r : world * py (list (option Image))) : list (option Image) :=
  match r.2 with
  | Return l => l
  | Raise _ => []
  end.

Definition has_returned (r : world * py (list (option Image))) : bool :=
  match r.2 with
  | Return _ => true
  | Raise _ => false
  end.

(** The sample of an output at [0, 0, 0, 1] and its series index. *)
Definition sample_0001 (o : option (option Image)) : option Q :=
  match o with
  | Some (Some img) => np.getitem (data img) [0; 0; 0; 1]
  | _ => None
  end.

Definition series_of (o : option (option Image)) : option Z :=
  match o with
  | Some (Some img) => Some (image_series_index (head img))
  | _ => None
  end.

End Sample.

(** ** Vocabulary of the statements *)

Section Vocabulary.
Context `{Platform}.
Import ismrmrd.

(** The conversion of lines 316-319 on one sample. *)
Definition to_int16 (x : scalar) : scalar :=
  astype_int16 (around1 (astype_float64 x)).

(** The image that pass [iImg] of the loop stores in [imagesOut]. *)
Definition derived (data : np.ndarray) (head : list ImageHeader) (meta : list Meta)
    (config : Config) (iImg : nat) : py Image :=
  slice <~ np.index_last data iImg ;;
  slice <~ np.transpose [3; 2; 0; 1] slice ;;
  out <~ from_array slice ;;
  oldHeader <~ py_index head iImg ;;
  m <~ py_index meta iImg ;;
  let oldHeader := update_header out oldHeader in
  Return (set_attribute_string
            (Meta_serialize (update_meta config (np.shape data) oldHeader m))
            (setHead oldHeader out)).

(** How many originals [process_image] puts in front of the derived images. *)
Definition prepended (caller : string) (config : Config) (n : nat) : nat :=
  if get_json_config_param_bool config "sendoriginal" false
     && negb (String.eqb caller "process_raw")
  then n else 0.

(** The events that write to disk. *)
Definition is_write (e : event) : bool :=
  match e with
  | Makedirs _ | NibSave _ _ => true
  | _ => false
  end.

Definition test_nii : string := "/buildhostdirectory/test.nii".

(** The disk writes of one call of [process_image]: the debug folder, when
    it has to be made, then the NIfTI file. *)
Definition debug_writes (l : list event) : Prop :=
  l = [] ∨ l = [Makedirs debugFolder] ∨
  (∃ a, l = [NibSave test_nii a]) ∨
  (∃ a, l = [Makedirs debugFolder; NibSave test_nii a]).

(** What the connection is sent before the handlers run. *)
Definition sent_images (l : list event) : Prop :=
  l = [] ∨ ∃ images, l = [SendImage images].

End Vocabulary.

(** ** Further vocabulary: the inputs [process_image] can process *)

Section Processable.
Context `{Platform}.
Import ismrmrd.

(** The MetaAttributes of an image parse, and their IceMiniHead, when there
    is one, decodes. *)
Definition readable (img : Image) : Prop :=
  ∃ m, Meta_deserialize (attribute_string img) = Return m ∧
       ∀ v, m !! "IceMiniHead" = Some v → ∃ s, b64decode_utf8 v = Return s.

(** The header is the parsed XML and its first encoding has no zero in its
    matrix size. *)
Definition sized (mrdHeader : MrdHeader) : Prop :=
  ∃ e encoding, mrdHeader = HeaderXml (e :: encoding) ∧
    (matrixSize e).1.1 ≠ 0%Z ∧ (matrixSize e).1.2 ≠ 0%Z ∧ (matrixSize e).2 ≠ 0%Z.

Definition processable (g : list Image) (mrdHeader : MrdHeader) (w : world) : Prop :=
  (∃ c z y x, ∀ img, img ∈ g → np.shape (data img) = [c; z; y; x]) ∧
  (∀ img, g !! 0 = Some img →
     ∃ d, get_dtype_from_data_type (data_type (ismrmrd.head img)) = Return d) ∧
  (∀ img, img ∈ g → readable img) ∧
  sized mrdHeader ∧
  "/buildhostdirectory" ∈ fs w.

End Processable.

(** ** Further vocabulary: the MetaAttributes the loop writes *)

(** The keys lines 358-381 may write. *)
Definition written_keys : list string :=
  ["DataRole"; "ImageProcessingHistory"; "WindowCenter"; "WindowWidth";
   "SequenceDescriptionAdditional"; "Keep_image_geometry"; "ROI_example";
   "LUTFileName"; "ImageRowDir"; "ImageColumnDir"].

(** [config['parameters']['options']], when both keys are there. *)
Definition options (config : Config) : option json :=
  p ← parameters config; p !! "options".

(** ** Further vocabulary: streams *)

Section Streams.
Context `{Platform}.
Import ismrmrd.

(** The images and the waveforms of a run of items, in their order. *)
Definition images_of (items : list item) : list Image :=
  omap (fun it => match it with ItemImage img => Some img | _ => None end) items.

Definition waveforms_of (items : list item) : list Waveform :=
  omap (fun it => match it with ItemWaveform wav => Some wav | _ => None end) items.

(** An item that is neither an acquisition nor [None]. *)
Definition is_plain (it : item) : bool :=
  match it with
  | ItemImage _ | ItemWaveform _ | ItemOther _ => true
  | ItemAcquisition _ | ItemNone => false
  end.

(** A step of the iterator that yields an item of an unsupported type. *)
Definition is_unsupported (step : py item) : bool :=
  match step with
  | Return (ItemOther _) => true
  | _ => false
  end.

(** A step of the iterator that yields [None]. *)
Definition is_none (step : py item) : bool :=
  match step with
  | Return ItemNone => true
  | _ => false
  end.

(** The end of a call of [process]: the events [tail] after those of [w]. *)
Definition closes (w : world) (tail : list event) : world * py unit :=
  ({| fs := fs w; events := events w ++ tail |}, Return tt).

End Streams.

(** ** Further vocabulary: waveforms *)

Section WaveformVocabulary.
Context `{Platform}.
Import ismrmrd.

(** Not later than, by time stamp. *)
Definition by_time (a b : Waveform) : Prop := (time_stamp a ≤ time_stamp b)%Z.

(** A step of the iterator that yields a waveform other than the ECG. *)
Definition is_other_waveform (step : py item) : bool :=
  match step with
  | Return (ItemWaveform wav) => negb (Z.eqb (waveform_id wav) 0)
  | _ => false
  end.

(** The groups of the stream without the other waveforms, next to those of
    the whole stream. *)
Definition same_but_waveforms (g g' : groups) : Prop :=
  acqGroup g' = acqGroup g ∧ imgGroup g' = imgGroup g ∧
  waveformGroup g' = filter (fun wav => waveform_id wav = 0%Z) (waveformGroup g).

End WaveformVocabulary.

(** ** Further sample inputs *)

Module SampleStreams.
Import ismrmrd Sample.

(** A second header, of another geometry. *)
Definition other_header : MrdHeader :=
  HeaderXml [ {| fieldOfView_mm := (300, 200, 8)%Z; matrixSize := (64, 32, 4)%Z |} ].

Definition with_colormap : Config :=
  {| parameters := Some {[ "options" := JStr "colormap" ]} |}.

Definition colormap_run : world * py (list (option Image)) :=
  process_image "process" [magnitude; phase] with_colormap header host.

(** Two images with an item of an unsupported type between them. *)
Definition mixed : list item :=
  [ItemImage magnitude; ItemOther "Text"; ItemImage phase].

Definition kept : Acquisition := {| flags := 0; scan_counter := 7 |}.

End SampleStreams.

(** * Properties *)

(** ** Sequencing *)

Lemma py_bind_Return {A B} (c : py A) (k : A → py B) (b : B) :
  py_bind c k = Return b → ∃ a, c = Return a ∧ k a = Return b.
Proof. destruct c as [a|e]; simpl; [eauto | discriminate]. Qed.

Lemma py_index_Return {A} (l : list A) (i : nat) (a : A) :
  py_index l i = Return a → l !! i = Some a.
Proof. unfold py_index. destruct (l !! i); congruence. Qed.

Lemma py_map_Return {A B} (f : A → py B) (l : list A) (bs : list B) :
  py_map f l = Return bs →
  length bs = length l ∧
  ∀ i a, l !! i = Some a → ∃ b, f a = Return b ∧ bs !! i = Some b.
Proof.
  revert bs. induction l as [|a l IH]; simpl; intros bs Hm.
  - inversion Hm. split; [done|]. intros i a Hi. by destruct i.
  - apply py_bind_Return in Hm as (b & Hb & Hm).
    apply py_bind_Return in Hm as (bs' & Hbs & Hm).
    inversion Hm; subst. destruct (IH _ Hbs) as [Hlen Hall].
    split; [simpl; congruence|].
    intros [|i] a' Hi; simpl in *.
    + inversion Hi; subst. eauto.
    + eauto.
Qed.

(** ** Arrays: stacking, the three transpositions and the slice *)

Section ArrayFacts.
Context `{Platform}.

Lemma stack_Return (arrays : list np.ndarray) (st : np.ndarray) :
  np.stack arrays = Return st →
  ∃ a0, arrays !! 0 = Some a0 ∧
    np.shape st = length arrays :: np.shape a0 ∧
    (∀ i a, arrays !! i = Some a → np.shape a = np.shape a0) ∧
    (∀ i idx, np.getitem st (i :: idx) = a ← arrays !! i; np.getitem a idx).
Proof.
  unfold np.stack. destruct arrays as [|a0 rest]; [discriminate|].
  destruct (forallb _ rest) eqn:Hall; [|discriminate].
  intros Hst. inversion Hst; subst; clear Hst. simpl.
  exists a0. repeat split; try done.
  intros [|i] a Hi; simpl in Hi; [congruence|].
  rewrite forallb_forall in Hall.
  apply list_elem_of_lookup_2, list_elem_of_In, Hall in Hi.
  by apply bool_decide_eq_true in Hi.
Qed.

(** Slicing image [i] out of the converted, twice transposed stack and
    transposing it back gives the samples of array [i], converted, at the
    same [cha z y x] index. *)
Lemma reslice_samples (arrays : list np.ndarray) (st t1 t2 sl arr : np.ndarray) (i : nat) :
  np.stack arrays = Return st →
  np.transpose [3; 4; 0; 1; 2] st = Return t1 →
  np.transpose [0; 1; 4; 3; 2] t1 = Return t2 →
  np.index_last (np.astype_i16 (np.around (np.astype_f64 t2))) i = Return sl →
  np.transpose [3; 2; 0; 1] sl = Return arr →
  np.dtype_of arr = np.int16 ∧
  np.ndim arr = 4 ∧
  ∃ a, arrays !! i = Some a ∧
    np.shape arr = np.shape a ∧
    ∀ c z y x, np.getitem arr [c; z; y; x] = to_int16 <$> np.getitem a [c; z; y; x].
Proof.
  intros Hst Ht1 Ht2 Hsl Harr.
  apply stack_Return in Hst as (a0 & Ha0 & Hshape & Hsame & Hget).
  unfold np.transpose, np.ndim in Ht1. rewrite Hshape in Ht1.
  destruct (np.shape a0) as [|c0 [|z0 [|y0 [|x0 [|? ?]]]]] eqn:Hs0;
    simpl in Ht1; try discriminate.
  inversion Ht1; subst t1; clear Ht1.
  unfold np.transpose, np.ndim in Ht2. simpl in Ht2.
  inversion Ht2; subst t2; clear Ht2.
  unfold np.index_last in Hsl. simpl in Hsl.
  destruct (Nat.ltb i (length arrays)) eqn:Hi; [|discriminate].
  inversion Hsl; subst sl; clear Hsl.
  unfold np.transpose, np.ndim in Harr. simpl in Harr.
  inversion Harr; subst arr; clear Harr. simpl.
  apply Nat.ltb_lt, lookup_lt_is_Some_2 in Hi as [a Ha].
  split; [done|]. split; [done|]. exists a. split; [done|].
  rewrite (Hsame _ _ Ha). split; [done|].
  intros c z y x. simpl. rewrite Hget, Ha. simpl.
  by destruct (np.getitem a [c; z; y; x]).
Qed.

End ArrayFacts.

(** ** The re-slicing loop *)

Section ProcessImageFacts.
Context `{Platform}.
Import ismrmrd.

Lemma reslice_Return data head meta config imagesOut cs i st :
  reslice data head meta config (imagesOut, cs) i = Return st →
  ∃ img, derived data head meta config i = Return img ∧
         fst st = <[i := Some img]> imagesOut.
Proof.
  unfold reslice, derived. intros Hr.
  apply py_bind_Return in Hr as (sl & Hsl & Hr). rewrite Hsl; simpl.
  apply py_bind_Return in Hr as (arr & Harr & Hr). rewrite Harr; simpl.
  apply py_bind_Return in Hr as (out & Hout & Hr). rewrite Hout; simpl.
  apply py_bind_Return in Hr as (oh & Hoh & Hr). rewrite Hoh; simpl.
  apply py_bind_Return in Hr as (m & Hm & Hr). rewrite Hm; simpl.
  apply py_bind_Return in Hr as (cs' & _ & Hr).
  inversion Hr; subst; simpl. eauto.
Qed.

Lemma reslice_loop data head meta config m : ∀ k imagesOut cs st,
  py_for (reslice data head meta config) (seq k m) (imagesOut, cs) = Return st →
  length (fst st) = length imagesOut ∧
  (∀ j, k ≤ j < k + m → j < length imagesOut →
     ∃ img, derived data head meta config j = Return img ∧
            fst st !! j = Some (Some img)) ∧
  (∀ j, j < k → fst st !! j = imagesOut !! j).
Proof.
  induction m as [|m IH]; simpl; intros k imagesOut cs st Hfor.
  - inversion Hfor; subst; simpl. split; [done|]. split; [intros j ?; lia | done].
  - apply py_bind_Return in Hfor as ([out1 cs1] & Hbody & Hfor).
    apply reslice_Return in Hbody as (img & Himg & Hout1). simpl in Hout1.
    destruct (IH _ _ _ _ Hfor) as (Hlen & Hnew & Hold).
    subst out1. rewrite length_insert in Hlen, Hnew.
    split; [done|]. split.
    + intros j Hj Hlt. destruct (decide (j = k)) as [->|Hne].
      * exists img. split; [done|].
        rewrite Hold by lia. by apply list_lookup_insert_eq.
      * apply Hnew; lia.
    + intros j Hj. rewrite Hold by lia. apply list_lookup_insert_ne. lia.
Qed.

Lemma send_originals_loop (l : list Image) : ∀ acc out,
  py_for (fun imagesOut image =>
            tmpImg <~ original image ;; Return (Some tmpImg :: imagesOut)) l acc
    = Return out →
  ∃ os, py_map original l = Return os ∧ out = (Some <$> reverse os) ++ acc.
Proof.
  induction l as [|a l IH]; simpl; intros acc out Hfor.
  - inversion Hfor. by exists [].
  - apply py_bind_Return in Hfor as (acc1 & Hstep & Hfor).
    apply py_bind_Return in Hstep as (o & Ho & Hstep).
    inversion Hstep; subst acc1; clear Hstep.
    destruct (IH _ _ Hfor) as (os & Hos & ->).
    exists (o :: os). rewrite Ho, Hos. simpl. split; [done|].
    rewrite reverse_cons, fmap_app, <- app_assoc. done.
Qed.

Lemma send_originals_Return (g : list Image) (acc out : list (option Image)) :
  send_originals g acc = Return out →
  length out = length g + length acc ∧
  (∀ j, out !! (length g + j) = acc !! j) ∧
  ∀ j image, g !! j = Some image →
    ∃ o, original image = Return o ∧ out !! j = Some (Some o).
Proof.
  unfold send_originals. intros Hs.
  apply send_originals_loop in Hs as (os & Hos & ->).
  apply py_map_Return in Hos as [Hlen Hos].
  rewrite length_reverse in Hlen.
  split; [|split].
  - rewrite length_app, length_fmap, length_reverse. lia.
  - intros j. rewrite lookup_app_r; rewrite length_fmap, length_reverse; [|lia].
    f_equal. lia.
  - intros j image Hj.
    assert (j < length g) as Hlt by (by eapply lookup_lt_Some).
    assert (reverse g !! (length g - S j) = Some image) as Hr.
    { rewrite reverse_lookup by lia. rewrite <- Hj. f_equal. lia. }
    destruct (Hos _ _ Hr) as (o & Ho & Hoi). exists o. split; [done|].
    rewrite lookup_app_l by (rewrite length_fmap, length_reverse; lia).
    rewrite list_lookup_fmap, reverse_lookup by lia.
    replace (length os - S j) with (length g - S j) by lia.
    by rewrite Hoi.
Qed.

End ProcessImageFacts.


(** ** process_image: what a returning call has computed *)

Section ProcessImageReturns.
Context `{Platform}.
Import ismrmrd.

Lemma m_bind_Return {A B} (c : M A) (k : A → M B) (w w' : world) (b : B) :
  m_bind c k w = (w', Return b) →
  ∃ w1 a, c w = (w1, Return a) ∧ k a w1 = (w', Return b).
Proof.
  unfold m_bind. destruct (c w) as [w1 [a|e]]; [eauto | discriminate].
Qed.

Lemma lift_Return {A} (c : py A) (w w' : world) (a : A) :
  lift c w = (w', Return a) → w' = w ∧ c = Return a.
Proof. unfold lift. intros Hl. by inversion Hl. Qed.

Lemma shape_last_resliced (arrays : list np.ndarray) (st t1 t2 : np.ndarray) (n : nat) :
  np.stack arrays = Return st →
  np.transpose [3; 4; 0; 1; 2] st = Return t1 →
  np.transpose [0; 1; 4; 3; 2] t1 = Return t2 →
  np.shape_last (np.astype_i16 (np.around (np.astype_f64 t2))) = Return n →
  n = length arrays.
Proof.
  intros Hst Ht1 Ht2 Hn.
  apply stack_Return in Hst as (a0 & _ & Hshape & _).
  unfold np.transpose, np.ndim in Ht1. rewrite Hshape in Ht1.
  destruct (np.shape a0) as [|c0 [|z0 [|y0 [|x0 [|? ?]]]]];
    simpl in Ht1; try discriminate.
  inversion Ht1; subst t1; clear Ht1.
  unfold np.transpose, np.ndim in Ht2. simpl in Ht2.
  inversion Ht2; subst t2; clear Ht2.
  unfold np.shape_last in Hn. simpl in Hn.
  by inversion Hn.
Qed.

(** A call that returns on a non-empty group has stacked the samples,
    read every Meta container and filled one derived image per input; the
    originals, when asked for, stand in front of them. *)
Lemma process_image_Return caller (g : list Image) config mrdHeader w w' out :
  g ≠ [] →
  process_image caller g config mrdHeader w = (w', Return out) →
  ∃ st t1 t2 meta,
    np.stack (data <$> g) = Return st ∧
    np.transpose [3; 4; 0; 1; 2] st = Return t1 ∧
    np.transpose [0; 1; 4; 3; 2] t1 = Return t2 ∧
    py_map (fun img => Meta_deserialize (attribute_string img)) g = Return meta ∧
    length out = prepended caller config (length g) + length g ∧
    (∀ j, j < length g →
       ∃ img,
         derived (np.astype_i16 (np.around (np.astype_f64 t2)))
                 (getHead <$> g) meta config j = Return img ∧
         out !! (prepended caller config (length g) + j) = Some (Some img)) ∧
    (prepended caller config (length g) = length g →
     ∀ j image, g !! j = Some image →
       ∃ o, original image = Return o ∧ out !! j = Some (Some o)).
Proof.
  intros Hg Hp. unfold process_image in Hp.
  destruct (Nat.eqb (length g) 0) eqn:Hlen.
  { apply Nat.eqb_eq, nil_length_inv in Hlen. done. }
  apply m_bind_Return in Hp as (w1 & there & _ & Hp).
  apply m_bind_Return in Hp as (w2 & [] & _ & Hp).
  apply m_bind_Return in Hp as (w3 & d0 & _ & Hp).
  apply m_bind_Return in Hp as (w4 & st & Hst & Hp).
  apply lift_Return in Hst as [-> Hst].
  apply m_bind_Return in Hp as (w5 & meta & Hmeta & Hp).
  apply lift_Return in Hmeta as [-> Hmeta].
  apply m_bind_Return in Hp as (w6 & t1 & Ht1 & Hp).
  apply lift_Return in Ht1 as [-> Ht1].
  apply m_bind_Return in Hp as (w7 & [] & _ & Hp).
  apply m_bind_Return in Hp as (w8 & [] & _ & Hp).
  apply m_bind_Return in Hp as (w9 & [] & _ & Hp).
  apply m_bind_Return in Hp as (w10 & [] & _ & Hp).
  apply m_bind_Return in Hp as (w11 & t2 & Ht2 & Hp).
  apply lift_Return in Ht2 as [-> Ht2].
  apply m_bind_Return in Hp as (w12 & n & Hn & Hp).
  apply lift_Return in Hn as [-> Hn].
  apply m_bind_Return in Hp as (w13 & loop & Hloop & Hp).
  apply lift_Return in Hloop as [-> Hloop].
  assert (n = length g) as ->.
  { rewrite <- (length_fmap data g). eapply shape_last_resliced; eauto. }
  apply reslice_loop in Hloop as (Hlen' & Hnew & _).
  rewrite length_replicate in Hlen', Hnew.
  exists st, t1, t2, meta. do 4 (split; [done|]).
  unfold prepended.
  destruct (get_json_config_param_bool config "sendoriginal" false);
    [destruct (String.eqb caller "process_raw")|]; simpl.
  - inversion Hp; subst. split; [done|]. split; [|intros Hz; destruct g; [done|simpl in Hz; lia]].
    intros j Hj. apply Hnew; lia.
  - apply lift_Return in Hp as [_ Hp].
    apply send_originals_Return in Hp as (Hlo & Hback & Hfront).
    split; [lia|]. split; [|done].
    intros j Hj. rewrite Hback. apply Hnew; lia.
  - inversion Hp; subst. split; [done|]. split; [|intros Hz; destruct g; [done|simpl in Hz; lia]].
    intros j Hj. apply Hnew; lia.
Qed.

End ProcessImageReturns.


(** ** process_image: the derived images *)

Section DerivedImages.
Context `{Platform}.
Import ismrmrd.

Lemma derived_Return data head meta config j img :
  derived data head meta config j = Return img →
  ∃ sl arr out oldHeader m,
    np.index_last data j = Return sl ∧
    np.transpose [3; 2; 0; 1] sl = Return arr ∧
    from_array arr = Return out ∧
    head !! j = Some oldHeader ∧
    meta !! j = Some m ∧
    img = set_attribute_string
            (Meta_serialize
               (update_meta config (np.shape data) (update_header out oldHeader) m))
            (setHead (update_header out oldHeader) out).
Proof.
  unfold derived. intros Hd.
  apply py_bind_Return in Hd as (sl & Hsl & Hd).
  apply py_bind_Return in Hd as (arr & Harr & Hd).
  apply py_bind_Return in Hd as (out & Hout & Hd).
  apply py_bind_Return in Hd as (oh & Hoh & Hd).
  apply py_bind_Return in Hd as (m & Hm & Hd).
  apply py_index_Return in Hoh, Hm. inversion Hd; subst.
  by exists sl, arr, out, oh, m.
Qed.

(** [from_array] on a four-axis [int16] array keeps the array and types the
    fresh header [DATATYPE_SHORT]. *)
Lemma from_array_int16 (arr : np.ndarray) (out : Image) :
  np.dtype_of arr = np.int16 → np.ndim arr = 4 →
  from_array arr = Return out →
  data out = arr ∧ data_type (ismrmrd.head out) = DATATYPE_SHORT.
Proof.
  unfold from_array. intros -> ->. simpl. intros Ho. by inversion Ho.
Qed.

(** The header written back is the input's with the data type of the new
    image; [int16] is not complex, so the image type stays. *)
Lemma update_header_short (out : Image) (oldHeader : ImageHeader) :
  data_type (ismrmrd.head out) = DATATYPE_SHORT →
  update_header out oldHeader = set_data_type DATATYPE_SHORT oldHeader.
Proof. unfold update_header. by intros ->. Qed.

(** The attributes [update_meta] fixes, whatever the input, the header and
    the configuration. *)
Lemma update_meta_fixed config data_shape oldHeader (m : Meta) :
  let m' := update_meta config data_shape oldHeader m in
  m' !! "DataRole" = Some (MStr "Image") ∧
  m' !! "ImageProcessingHistory" = Some (MList ["PYTHON"; "AFIB1"]) ∧
  m' !! "Keep_image_geometry" = Some (MInt 1) ∧
  m' !! "WindowCenter" = Some (MStr "2048.0") ∧
  m' !! "WindowWidth" = Some (MStr "4096").
Proof.
  unfold update_meta.
  repeat case_match; repeat split; by simplify_map_eq.
Qed.

(** One derived image, seen from the input it comes from. *)
Lemma derived_from_input (g : list Image) st t1 t2 meta config j img :
  np.stack (data <$> g) = Return st →
  np.transpose [3; 4; 0; 1; 2] st = Return t1 →
  np.transpose [0; 1; 4; 3; 2] t1 = Return t2 →
  derived (np.astype_i16 (np.around (np.astype_f64 t2)))
          (getHead <$> g) meta config j = Return img →
  ∃ input m,
    g !! j = Some input ∧ meta !! j = Some m ∧
    np.dtype_of (data img) = np.int16 ∧
    np.shape (data img) = np.shape (data input) ∧
    (∀ c z y x, np.getitem (data img) [c; z; y; x]
                = to_int16 <$> np.getitem (data input) [c; z; y; x]) ∧
    ismrmrd.head img = set_data_type DATATYPE_SHORT (ismrmrd.head input) ∧
    attribute_string img =
      Meta_serialize
        (update_meta config
           (np.shape (np.astype_i16 (np.around (np.astype_f64 t2))))
           (set_data_type DATATYPE_SHORT (ismrmrd.head input)) m).
Proof.
  intros Hst Ht1 Ht2 Hd.
  apply derived_Return in Hd as (sl & arr & out & oh & m & Hsl & Harr & Hout & Hoh & Hm & ->).
  destruct (reslice_samples _ _ _ _ _ _ _ Hst Ht1 Ht2 Hsl Harr)
    as (Hdt & Hnd & a & Ha & Hshape & Hget).
  destruct (from_array_int16 _ _ Hdt Hnd Hout) as [Hdata Htype].
  rewrite list_lookup_fmap in Ha. rewrite list_lookup_fmap in Hoh.
  destruct (g !! j) as [input|] eqn:Hin; [|done].
  simpl in Ha, Hoh. inversion Ha; subst a. inversion Hoh; subst oh.
  rewrite (update_header_short _ _ Htype).
  exists input, m. simpl. rewrite Hdata. unfold getHead. done.
Qed.

End DerivedImages.


(** ** process_image: the calls that return *)

Section ProcessImageSucceeds.
Context `{Platform}.
Import ismrmrd.

Lemma py_map_succeeds {A B} (f : A → py B) (l : list A) :
  (∀ a, a ∈ l → ∃ b, f a = Return b) → ∃ bs, py_map f l = Return bs.
Proof.
  induction l as [|a l IH]; intros Hall; simpl; [by eexists|].
  destruct (Hall a) as [b ->]; [by left|].
  destruct IH as [bs ->]; [intros a' Ha'; apply Hall; by right|].
  simpl. by eexists.
Qed.

Lemma py_for_succeeds {A S} (body : S → A → py S) (l : list A) : ∀ s,
  (∀ s a, a ∈ l → ∃ s', body s a = Return s') → ∃ s', py_for body l s = Return s'.
Proof.
  induction l as [|a l IH]; intros s Hall; simpl; [by eexists|].
  destruct (Hall s a) as [s1 ->]; [by left|]. simpl.
  apply IH. intros s' a' Ha'. apply Hall. by right.
Qed.

(** Arrays of one four-axis shape stack and transpose. *)
Lemma stack_transposes (arrays : list np.ndarray) (c z y x : nat) :
  arrays ≠ [] →
  (∀ a, a ∈ arrays → np.shape a = [c; z; y; x]) →
  ∃ st t1 t2,
    np.stack arrays = Return st ∧
    np.transpose [3; 4; 0; 1; 2] st = Return t1 ∧
    np.transpose [0; 1; 4; 3; 2] t1 = Return t2 ∧
    np.shape t2 = [y; x; z; c; length arrays].
Proof.
  intros Hne Hshape. destruct arrays as [|a0 rest]; [done|].
  unfold np.stack.
  assert (forallb (fun a => bool_decide (np.shape a = np.shape a0)) rest = true) as ->.
  { apply forallb_forall. intros a Ha%list_elem_of_In. apply bool_decide_eq_true.
    rewrite (Hshape a0) by (by left). apply Hshape. by right. }
  eexists. unfold np.transpose at 1, np.ndim. simpl.
  rewrite (Hshape a0) by (by left). simpl.
  eexists. unfold np.transpose at 1, np.ndim. simpl.
  eexists. repeat split.
Qed.

(** One pass of the re-slicing loop goes through when the image's
    IceMiniHead, if it has one, decodes. *)
Lemma reslice_succeeds (d : np.ndarray) head meta config st i (y x z c n : nat) m oldHeader :
  np.dtype_of d = np.int16 →
  np.shape d = [y; x; z; c; n] →
  i < n →
  head !! i = Some oldHeader →
  meta !! i = Some m →
  (∀ v, m !! "IceMiniHead" = Some v → ∃ s, b64decode_utf8 v = Return s) →
  ∃ st', reslice d head meta config st i = Return st'.
Proof.
  intros Hdt Hshape Hi Hhead Hmeta Hice. destruct st as [imagesOut currentSeries].
  unfold reslice, np.index_last. rewrite Hshape. simpl.
  apply Nat.ltb_lt in Hi. rewrite Hi. simpl.
  unfold from_array. simpl. rewrite Hdt. simpl.
  unfold py_index. rewrite Hhead, Hmeta. simpl.
  unfold series_end, get_meta_value.
  destruct (m !! "IceMiniHead") as [v|] eqn:Hv; simpl; [|by eexists].
  destruct (Hice v eq_refl) as [s ->]. simpl.
  destruct (extract_minihead_bool_param s "BIsSeriesEnd") as [[]|]; by eexists.
Qed.

(** [process_image] returns on a non-empty group of images of one
    four-axis shape whose MetaAttributes parse, when the first image has a
    known data type, the header is the parsed XML with a first encoding of
    non-zero matrix size and the folder of the NIfTI file exists. *)
Lemma process_image_returns caller (g : list Image) config w
    (c z y x : nat) (e : Encoding) (encoding : list Encoding) :
  g ≠ [] →
  "/buildhostdirectory" ∈ fs w →
  (∀ img, img ∈ g → np.shape (data img) = [c; z; y; x]) →
  (∀ img, g !! 0 = Some img →
     ∃ d, get_dtype_from_data_type (data_type (ismrmrd.head img)) = Return d) →
  (∀ img, img ∈ g →
     ∃ m, Meta_deserialize (attribute_string img) = Return m ∧
          ∀ v, m !! "IceMiniHead" = Some v → ∃ s, b64decode_utf8 v = Return s) →
  (matrixSize e).1.1 ≠ 0%Z → (matrixSize e).1.2 ≠ 0%Z → (matrixSize e).2 ≠ 0%Z →
  ∃ w' out,
    process_image caller g config (HeaderXml (e :: encoding)) w = (w', Return out).
Proof.
  intros Hne Hdir Hshape Htype Hmeta Hmx Hmy Hmz.
  destruct (stack_transposes (data <$> g) c z y x) as (st & t1 & t2 & Hst & Ht1 & Ht2 & Hs2).
  { by destruct g. }
  { intros a (img & -> & Himg)%list_elem_of_fmap. by apply Hshape. }
  rewrite length_fmap in Hs2.
  destruct (py_map_succeeds (fun img => Meta_deserialize (attribute_string img)) g)
    as [meta Hmetas].
  { intros img Himg. destruct (Hmeta img Himg) as (m & -> & _). by eexists. }
  destruct (py_map_Return _ _ _ Hmetas) as [Hlen Hnth].
  assert (∀ i m, meta !! i = Some m →
            ∀ v, m !! "IceMiniHead" = Some v → ∃ s, b64decode_utf8 v = Return s) as Hice.
  { intros i m Hm.
    destruct (lookup_lt_is_Some_2 g i) as [img Himg].
    { rewrite <- Hlen. by eapply lookup_lt_Some. }
    destruct (Hnth _ _ Himg) as (m' & Hdes & Hm').
    assert (m' = m) as -> by congruence.
    destruct (Hmeta img) as (m'' & Hdes' & Hok); [by eapply list_elem_of_lookup_2|].
    assert (m'' = m) as -> by congruence. done. }
  destruct g as [|img0 g'] eqn:Hg; [done|]. rewrite <- Hg in *.
  destruct (Htype img0) as [d0 Hd0]; [by subst g|].
  destruct meta as [|meta0 meta'] eqn:Hm; [subst g; simpl in Hlen; lia|].
  rewrite <- Hm in *.
  unfold process_image.
  replace (Nat.eqb (length g) 0) with false by (by subst g).
  unfold m_bind at 1. unfold os_path_exists at 1.
  set (w1 := if bool_decide (debugFolder ∈ fs w) then w
             else {| fs := fs w ++ [debugFolder];
                     events := events w ++ [Makedirs debugFolder] |}).
  assert ("/buildhostdirectory" ∈ fs w1) as Hdir1.
  { unfold w1. case_bool_decide; [done|]. simpl. apply elem_of_app. by left. }
  unfold m_bind at 1.
  replace ((if bool_decide (debugFolder ∈ fs w) then m_ret ()
            else os_makedirs debugFolder) w) with (w1, Return ())
    by (unfold w1, os_makedirs, m_ret; by case_bool_decide).
  unfold m_bind, lift.
  replace (py_index g 0) with (Return img0) by (by subst g). simpl py_bind.
  rewrite Hd0, Hst, Hmetas, Ht1.
  replace (py_index meta 0) with (Return meta0) by (by subst meta). simpl py_bind.
  assert ((match meta0 !! "IceMiniHead" with
           | Some v => _ <~ b64decode_utf8 v;; Return ()
           | None => Return ()
           end) = Return ()) as ->.
  { destruct (meta0 !! "IceMiniHead") as [v|] eqn:Hv; [|done].
    destruct (Hice 0 meta0) with (v := v) as [s ->]; [by subst meta|done|done]. }
  simpl sequence_parameters. cbv iota.
  assert (voxel_sizes (HeaderXml (e :: encoding)) = Return ()) as ->.
  { unfold voxel_sizes, py_index. simpl.
    destruct (fieldOfView_mm e) as [[fx fy] fz].
    destruct (matrixSize e) as [[mx my] mz]. simpl in *.
    unfold truediv.
    apply Z.eqb_neq in Hmx, Hmy, Hmz. by rewrite Hmx, Hmy, Hmz. }
  unfold nib_save. rewrite bool_decide_eq_true_2 by done.
  rewrite Ht2.
  unfold np.shape_last. simpl np.shape. rewrite Hs2. simpl.
  destruct (py_for_succeeds
              (reslice (np.astype_i16 (np.around (np.astype_f64 t2)))
                       (getHead <$> g) meta config)
              (seq 0 (length g)) (replicate (length g) None, 0%Z)) as [st' ->].
  { intros s i Hi%elem_of_seq.
    destruct (lookup_lt_is_Some_2 g i) as [img Himg]; [lia|].
    destruct (lookup_lt_is_Some_2 meta i) as [m Hmi]; [lia|].
    eapply (reslice_succeeds _ _ _ _ _ _ y x z c (length g)); try done.
    - lia.
    - by rewrite list_lookup_fmap, Himg.
    - by eapply Hice. }
  destruct (get_json_config_param_bool config "sendoriginal" false);
    [destruct (String.eqb caller "process_raw")|]; try (by eexists _, _).
  unfold send_originals.
  destruct (py_for_succeeds
              (fun imagesOut image =>
                 tmpImg <~ original image;; Return (Some tmpImg :: imagesOut))
              (reverse g) st'.1) as [out ->]; [|by eexists _, _].
  intros s img Himg. rewrite elem_of_reverse in Himg. unfold original. simpl.
  destruct (Hmeta img Himg) as (m & -> & _). simpl. by eexists.
Qed.

End ProcessImageSucceeds.

(** ** Claims on process_image *)

Section ProcessImageClaims.
Context `{Platform}.
Import ismrmrd.

(** C1, as amended.  Whenever [process_image] returns, the derived image of
    input [i] holds the samples of input [i] converted to float64, rounded
    and cast to int16, at the same [cha z y x] index and under the same
    shape: no unwrapping, masking or ratio has touched them.  The derived
    image of input [i] is output [i] when no originals are prepended and
    output [len(imgGroup) + i] when they are. *)
Theorem derived_pixels_are_converted_inputs
    caller (g : list Image) config mrdHeader w w' out :
  process_image caller g config mrdHeader w = (w', Return out) →
  ∀ i input, g !! i = Some input →
    ∃ img,
      out !! (prepended caller config (length g) + i) = Some (Some img) ∧
      np.dtype_of (data img) = np.int16 ∧
      np.shape (data img) = np.shape (data input) ∧
      ∀ c z y x, np.getitem (data img) [c; z; y; x]
                 = to_int16 <$> np.getitem (data input) [c; z; y; x].
Proof.
  intros Hp i input Hin.
  assert (g ≠ []) as Hg by (intros ->; done).
  destruct (process_image_Return _ _ _ _ _ _ _ Hg Hp)
    as (st & t1 & t2 & meta & Hst & Ht1 & Ht2 & _ & _ & Hder & _).
  destruct (Hder i) as (img & Himg & Hout); [by eapply lookup_lt_Some|].
  destruct (derived_from_input _ _ _ _ _ _ _ _ Hst Ht1 Ht2 Himg)
    as (input' & m & Hin' & _ & Hdt & Hshape & Hget & _).
  assert (input' = input) as -> by congruence.
  by exists img.
Qed.

(** C6, as amended.  Whenever [process_image] returns, the header of the
    derived image of input [i] is the header of input [i] with [data_type]
    set to the data type of the derived image, which is [DATATYPE_SHORT];
    that type is not complex, so [image_type] and every other field are
    those of the input.  The derived image of input [i] is output
    [len(imgGroup) + i] when the originals are prepended. *)
Theorem derived_header_is_input_header
    caller (g : list Image) config mrdHeader w w' out :
  process_image caller g config mrdHeader w = (w', Return out) →
  ∀ i input, g !! i = Some input →
    ∃ img,
      out !! (prepended caller config (length g) + i) = Some (Some img) ∧
      get_data_type_from_dtype (np.dtype_of (data img)) = Return DATATYPE_SHORT ∧
      ismrmrd.head img = set_data_type DATATYPE_SHORT (ismrmrd.head input) ∧
      image_type (ismrmrd.head img) = image_type (ismrmrd.head input) ∧
      image_series_index (ismrmrd.head img) = image_series_index (ismrmrd.head input).
Proof.
  intros Hp i input Hin.
  assert (g ≠ []) as Hg by (intros ->; done).
  destruct (process_image_Return _ _ _ _ _ _ _ Hg Hp)
    as (st & t1 & t2 & meta & Hst & Ht1 & Ht2 & _ & _ & Hder & _).
  destruct (Hder i) as (img & Himg & Hout); [by eapply lookup_lt_Some|].
  destruct (derived_from_input _ _ _ _ _ _ _ _ Hst Ht1 Ht2 Himg)
    as (input' & m & Hin' & _ & Hdt & _ & _ & Hhead & _).
  assert (input' = input) as -> by congruence.
  exists img. rewrite Hdt, Hhead. done.
Qed.

(** C7.  Whenever [process_image] returns: with [sendoriginal] false the
    output has one image per input, of the input's shape; with
    [sendoriginal] true and a caller other than [process_raw] it has twice
    as many, the inputs first and in their order, each with
    [image_series_index] 99 and [Keep_image_geometry] set to 1 in its
    MetaAttributes, and behind them the image derived from each input. *)
Theorem output_count_and_originals
    caller (g : list Image) config mrdHeader w w' out :
  process_image caller g config mrdHeader w = (w', Return out) →
  (get_json_config_param_bool config "sendoriginal" false = false →
     length out = length g ∧
     ∀ i input, g !! i = Some input →
       ∃ img, out !! i = Some (Some img) ∧
              np.shape (data img) = np.shape (data input)) ∧
  (get_json_config_param_bool config "sendoriginal" false = true →
   caller ≠ "process_raw" →
     length out = 2 * length g ∧
     ∀ i input, g !! i = Some input →
       (∃ m, Meta_deserialize (attribute_string input) = Return m ∧
             out !! i = Some (Some
               {| ismrmrd.head := set_image_series_index 99 (ismrmrd.head input);
                  data := data input;
                  attribute_string :=
                    Meta_serialize (<["Keep_image_geometry" := MInt 1]> m) |})) ∧
       ∃ img, out !! (length g + i) = Some (Some img) ∧
              np.shape (data img) = np.shape (data input)).
Proof.
  intros Hp. destruct g as [|input0 g'].
  { unfold process_image in Hp. simpl in Hp. inversion Hp; subst.
    split; intros; (split; [done|]); intros i input Hi; by destruct i. }
  set (g := input0 :: g') in *.
  assert (g ≠ []) as Hg by done.
  destruct (process_image_Return _ _ _ _ _ _ _ Hg Hp)
    as (st & t1 & t2 & meta & Hst & Ht1 & Ht2 & _ & Hlen & Hder & Horig).
  assert (∀ i input, g !! i = Some input →
            ∃ img, out !! (prepended caller config (length g) + i) = Some (Some img) ∧
                   np.shape (data img) = np.shape (data input)) as Hshape.
  { intros i input Hin.
    destruct (Hder i) as (img & Himg & Hout); [by eapply lookup_lt_Some|].
    destruct (derived_from_input _ _ _ _ _ _ _ _ Hst Ht1 Ht2 Himg)
      as (input' & m & Hin' & _ & _ & Hs & _).
    assert (input' = input) as -> by congruence. by exists img. }
  split.
  - intros Hso. unfold prepended in *. rewrite Hso in *. simpl in *.
    split; [done|]. exact Hshape.
  - intros Hso Hcaller. apply String.eqb_neq in Hcaller.
    unfold prepended in *. rewrite Hso, Hcaller in *. simpl negb in *.
    simpl andb in *. cbv iota in *.
    split; [lia|]. intros i input Hin. split; [|by apply Hshape].
    destruct (Horig eq_refl i input Hin) as (o & Ho & Hout).
    unfold original in Ho. apply py_bind_Return in Ho as (m & Hm & Ho).
    exists m. split; [done|]. rewrite Hout. inversion Ho. done.
Qed.

(** C9.  On an empty group [process_image] returns the empty list at once:
    the world is as it was, so nothing was built, changed or sent. *)
Theorem empty_group_returns_nothing caller config mrdHeader w :
  process_image caller [] config mrdHeader w = (w, Return []).
Proof. reflexivity. Qed.

(** C10.  Whenever [process_image] returns, every derived image carries in
    its MetaAttributes DataRole = 'Image', ImageProcessingHistory =
    ['PYTHON', 'AFIB1'], Keep_image_geometry = 1, WindowCenter = '2048.0'
    and WindowWidth = '4096', whatever the header and the configuration. *)
Theorem derived_meta_attributes
    caller (g : list Image) config mrdHeader w w' out :
  process_image caller g config mrdHeader w = (w', Return out) →
  length out = prepended caller config (length g) + length g ∧
  ∀ i, i < length g →
    ∃ img m,
      out !! (prepended caller config (length g) + i) = Some (Some img) ∧
      attribute_string img = Meta_serialize m ∧
      m !! "DataRole" = Some (MStr "Image") ∧
      m !! "ImageProcessingHistory" = Some (MList ["PYTHON"; "AFIB1"]) ∧
      m !! "Keep_image_geometry" = Some (MInt 1) ∧
      m !! "WindowCenter" = Some (MStr "2048.0") ∧
      m !! "WindowWidth" = Some (MStr "4096").
Proof.
  intros Hp. destruct g as [|input0 g'].
  { unfold process_image in Hp. simpl in Hp. inversion Hp; subst.
    unfold prepended. simpl. split; [by case_match|]. intros i Hi. lia. }
  set (g := input0 :: g') in *.
  assert (g ≠ []) as Hg by done.
  destruct (process_image_Return _ _ _ _ _ _ _ Hg Hp)
    as (st & t1 & t2 & meta & Hst & Ht1 & Ht2 & _ & Hlen & Hder & _).
  split; [done|]. intros i Hi.
  destruct (Hder i Hi) as (img & Himg & Hout).
  destruct (derived_from_input _ _ _ _ _ _ _ _ Hst Ht1 Ht2 Himg)
    as (input & m & _ & _ & _ & _ & _ & _ & Hattr).
  eexists img, _. split; [done|]. split; [exact Hattr|].
  apply update_meta_fixed.
Qed.

End ProcessImageClaims.


(** ** The events of a call *)

Section Events.
Context `{Platform}.
Import ismrmrd.

(** The events of [process_image], on every path: the debug folder is made
    when it is missing, and the NIfTI file is saved on the paths that get
    that far, which the returning ones do. *)
Lemma process_image_events caller (g : list Image) config mrdHeader w :
  ∃ new,
    events (process_image caller g config mrdHeader w).1 = events w ++ new ∧
    debug_writes new ∧
    (g = [] → new = []) ∧
    (g ≠ [] → debugFolder ∉ fs w → Makedirs debugFolder ∈ new) ∧
    (g ≠ [] → ∀ out, (process_image caller g config mrdHeader w).2 = Return out →
       ∃ a, NibSave test_nii a ∈ new).
Proof.
  unfold process_image. destruct (Nat.eqb (length g) 0) eqn:Hg.
  - exists []. simpl. rewrite app_nil_r.
    apply Nat.eqb_eq, nil_length_inv in Hg. subst g.
    unfold debug_writes. repeat split; eauto; done.
  - assert (g = [] → False) as Hne by (intros ->; done).
    unfold m_bind, os_path_exists, os_makedirs, lift, nib_save, m_ret, debug_writes.
    repeat case_match; simplify_eq; simpl;
      (eexists; split; [rewrite <- ?app_assoc; try reflexivity; by rewrite app_nil_r|]);
      (split; [eauto 10|]);
      (split; [by intros ?|]);
      (split; [intros _ Hmiss|intros _ out Hout; try done]).
  all: repeat match goal with
             | Hd : bool_decide _ = true |- _ => apply bool_decide_eq_true in Hd
             end.
  all: simpl; try contradiction; try eexists.
  all: first [ by left | by right; left ].
Qed.

End Events.


(** ** process: the loop, the flush and the handlers *)

Section ProcessFacts.
Context `{Platform}.
Import ismrmrd.

(** [process_raw] raises before anything is sent, so no pass through the
    loop body changes the world. *)
Lemma loop_body_world config mrdHeader g it w :
  (loop_body config mrdHeader g it w).1 = w.
Proof.
  destruct it as [a|img|wav| |name]; simpl; try done.
  by destruct (is_flag_set a ACQ_LAST_IN_SLICE).
Qed.

Lemma receive_world config mrdHeader stream : ∀ g w,
  (receive config mrdHeader stream g w).1 = w.
Proof.
  induction stream as [|[it|e] stream IH]; intros g w; simpl; try done.
  pose proof (loop_body_world config mrdHeader g it w) as Hw.
  destruct (loop_body config mrdHeader g it w) as [w1 [g1 [| |e]]];
    simpl in Hw; subst w1; [apply IH|done|done].
Qed.

Lemma flush_events config mrdHeader g w :
  ∃ new sent,
    events (flush config mrdHeader g w).1 = events w ++ new ++ sent ∧
    debug_writes new ∧ sent_images sent.
Proof.
  unfold flush, m_bind, lift, process_raw, sent_images.
  destruct (ecg (waveformGroup g)) as [[]|e].
  2:{ exists [], []. simpl. rewrite app_nil_r. unfold debug_writes. eauto. }
  destruct (Nat.ltb 0 (length (acqGroup g))).
  { exists [], []. simpl. rewrite app_nil_r. unfold debug_writes. eauto. }
  simpl. destruct (Nat.ltb 0 (length (imgGroup g))).
  2:{ exists [], []. simpl. rewrite app_nil_r. unfold debug_writes. eauto. }
  destruct (process_image_events "process" (imgGroup g) config mrdHeader w)
    as (new & Hev & Hdw & _).
  destruct (process_image "process" (imgGroup g) config mrdHeader w)
    as [w1 [images|e]]; simpl in Hev |- *.
  - exists new, [SendImage images]. rewrite Hev, <- app_assoc. eauto.
  - exists new, []. rewrite Hev, app_nil_r. eauto.
Qed.

Lemma try_block_events config mrdHeader stream w :
  ∃ new sent,
    events (try_block config mrdHeader stream w).1 = events w ++ new ++ sent ∧
    debug_writes new ∧ sent_images sent.
Proof.
  unfold try_block.
  pose proof (receive_world config mrdHeader stream no_groups w) as Hw.
  destruct (receive config mrdHeader stream no_groups w) as [w1 [g [[]|e]]];
    simpl in Hw; subst w1.
  - apply flush_events.
  - exists [], []. simpl. rewrite app_nil_r. unfold debug_writes, sent_images. eauto.
Qed.

(** The events of [process]: those of the [try] block, the error message
    when the block raised, and the close. *)
Lemma process_events stream config mrdHeader w :
  (process stream config mrdHeader w).2 = Return tt ∧
  events (process stream config mrdHeader w).1 =
    events (try_block config mrdHeader stream w).1 ++
    match (try_block config mrdHeader stream w).2 with
    | Return _ => []
    | Raise e => [SendLogging MRD_LOGGING_ERROR (format_exc e)]
    end ++ [SendClose].
Proof.
  unfold process.
  destruct (try_block config mrdHeader stream w) as [w1 [[]|e]]; simpl.
  - done.
  - by rewrite <- app_assoc.
Qed.

Lemma debug_writes_no_send (l : list event) (e : event) :
  debug_writes l → e ∈ l → is_write e = true.
Proof.
  unfold debug_writes.
  intros [->|[->|[[a ->]|[a ->]]]] He; apply list_elem_of_In in He;
    simpl in He; intuition (subst; done).
Qed.

Lemma sent_images_inv (l : list event) (e : event) :
  sent_images l → e ∈ l → ∃ images, e = SendImage images.
Proof.
  intros [->|[images ->]] He; apply list_elem_of_In in He;
    simpl in He; intuition (subst; eauto).
Qed.

Lemma filter_debug_writes (l : list event) :
  debug_writes l → List.filter is_write l = l.
Proof. unfold debug_writes. intros [->|[->|[[a ->]|[a ->]]]]; done. Qed.

End ProcessFacts.

(** ** Claims on process *)

Section ProcessClaims.
Context `{Platform}.
Import ismrmrd.

(** C2 fails on the code.  An acquisition flagged ACQ_LAST_IN_SLICE, or an
    imaging acquisition left in the group at the end of the stream, makes
    [process] call [process_raw], a name the script never binds: the call
    raises NameError, no image is sent, and the connection gets the error
    message and the close. *)
Theorem process_raw_is_unbound config mrdHeader w rest counter :
  let failed :=
    ({| fs := fs w;
        events := (events w ++
                   [SendLogging MRD_LOGGING_ERROR (format_exc (NameError "process_raw"))])
                  ++ [SendClose] |}, Return tt) in
  process (Return (ItemAcquisition {| flags := 128; scan_counter := counter |}) :: rest)
          config mrdHeader w = failed ∧
  process [Return (ItemAcquisition {| flags := 0; scan_counter := counter |})]
          config mrdHeader w = failed.
Proof. split; reflexivity. Qed.

(** C3.  One pass through the loop body puts the item in the group of its
    type: an acquisition joins the acquisition group exactly when none of
    the noise, parallel calibration, phase correction and navigation flags
    is set, and leaves the other groups alone; an image joins the image
    group; a waveform joins the waveform group; [None] ends the loop with
    the groups as they are; anything else changes no group. *)
Theorem loop_body_dispatch config mrdHeader g it w :
  let after := (loop_body config mrdHeader g it w).2 in
  match it with
  | ItemAcquisition a =>
      (is_flag_set a ACQ_IS_NOISE_MEASUREMENT = false ∧
       is_flag_set a ACQ_IS_PARALLEL_CALIBRATION = false ∧
       is_flag_set a ACQ_IS_PHASECORR_DATA = false ∧
       is_flag_set a ACQ_IS_NAVIGATION_DATA = false →
         acqGroup after.1 = acqGroup g ++ [a]) ∧
      (is_flag_set a ACQ_IS_NOISE_MEASUREMENT = true ∨
       is_flag_set a ACQ_IS_PARALLEL_CALIBRATION = true ∨
       is_flag_set a ACQ_IS_PHASECORR_DATA = true ∨
       is_flag_set a ACQ_IS_NAVIGATION_DATA = true →
         acqGroup after.1 = acqGroup g) ∧
      imgGroup after.1 = imgGroup g ∧
      waveformGroup after.1 = waveformGroup g
  | ItemImage img =>
      after = ({| acqGroup := acqGroup g; imgGroup := imgGroup g ++ [img];
                  waveformGroup := waveformGroup g |}, Continue)
  | ItemWaveform wav =>
      after = ({| acqGroup := acqGroup g; imgGroup := imgGroup g;
                  waveformGroup := waveformGroup g ++ [wav] |}, Continue)
  | ItemNone =>
      after = (g, Break) ∧
      ∀ rest, receive config mrdHeader (Return ItemNone :: rest) g w
              = (w, (g, Return tt))
  | ItemOther _ => after = (g, Continue)
  end.
Proof.
  destruct it as [a|img|wav| |name]; simpl; try done.
  unfold is_imaging.
  destruct (is_flag_set a ACQ_IS_NOISE_MEASUREMENT),
           (is_flag_set a ACQ_IS_PARALLEL_CALIBRATION),
           (is_flag_set a ACQ_IS_PHASECORR_DATA),
           (is_flag_set a ACQ_IS_NAVIGATION_DATA),
           (is_flag_set a ACQ_LAST_IN_SLICE); simpl;
    (split; [intros (?&?&?&?); done|]); (split; [|done]);
    intros Hset; try done; intuition discriminate.
Qed.

(** C5.  On every path of [process_image], returning or raising, the events
    of the call hold no run of a subprocess: the brain-extraction binary is
    never started. *)
Theorem no_subprocess caller (g : list Image) config mrdHeader w :
  ∃ new,
    events (process_image caller g config mrdHeader w).1 = events w ++ new ∧
    ∀ argv, SubprocessRun argv ∉ new.
Proof.
  destruct (process_image_events caller g config mrdHeader w) as (new & Hev & Hdw & _).
  exists new. split; [done|]. intros argv Hin.
  by apply (debug_writes_no_send _ _ Hdw) in Hin.
Qed.

(** C4, as amended.  [process_image] does write to disk, and only this: on
    a non-empty group it makes the folder /tmp/share/debug when that is
    missing and, on every path that returns, it saves the stacked samples
    to /buildhostdirectory/test.nii, once; on an empty group it writes
    nothing.  [process] writes nothing beyond what its one call of
    [process_image] writes. *)
Theorem writes_are_debug_output caller (g : list Image) stream config mrdHeader w :
  (∃ new,
     events (process_image caller g config mrdHeader w).1 = events w ++ new ∧
     debug_writes (List.filter is_write new) ∧
     (g = [] → new = []) ∧
     (g ≠ [] → debugFolder ∉ fs w → Makedirs debugFolder ∈ new) ∧
     (g ≠ [] → ∀ out, (process_image caller g config mrdHeader w).2 = Return out →
        ∃ a, NibSave test_nii a ∈ new)) ∧
  (∃ new,
     events (process stream config mrdHeader w).1 = events w ++ new ∧
     debug_writes (List.filter is_write new)).
Proof.
  split.
  - destruct (process_image_events caller g config mrdHeader w)
      as (new & Hev & Hdw & Hrest).
    exists new. by rewrite (filter_debug_writes _ Hdw).
  - destruct (process_events stream config mrdHeader w) as [_ Hev].
    destruct (try_block_events config mrdHeader stream w)
      as (new & sent & Htry & Hdw & Hsent).
    rewrite Htry in Hev. eexists. split.
    { rewrite Hev, <- !app_assoc. reflexivity. }
    rewrite !List.filter_app, (filter_debug_writes _ Hdw).
    replace (List.filter is_write sent) with (@nil event)
      by (by destruct Hsent as [->|[images ->]]).
    replace (List.filter is_write _) with (@nil event)
      by (by destruct (try_block config mrdHeader stream w).2).
    simpl. by rewrite !app_nil_r.
Qed.

(** C8.  Every call of [process] returns, and its events end with the one
    and only [send_close].  When the [try] block raised, the loop included,
    the event just before the close is the [send_logging] of the traceback
    at level MRD_LOGGING_ERROR; when it did not, nothing is logged. *)
Theorem send_close_once stream config mrdHeader w :
  ∃ w' pre,
    process stream config mrdHeader w = (w', Return tt) ∧
    events w' = events w ++ pre ++ [SendClose] ∧
    (SendClose ∉ pre) ∧
    (∀ e, (receive config mrdHeader stream no_groups w).2.2 = Raise e →
          (try_block config mrdHeader stream w).2 = Raise e) ∧
    match (try_block config mrdHeader stream w).2 with
    | Raise e =>
        ∃ pre', pre = pre' ++ [SendLogging MRD_LOGGING_ERROR (format_exc e)] ∧
                ∀ level msg, SendLogging level msg ∉ pre'
    | Return _ => ∀ level msg, SendLogging level msg ∉ pre
    end.
Proof.
  destruct (process_events stream config mrdHeader w) as [Hret Hev].
  destruct (try_block_events config mrdHeader stream w)
    as (new & sent & Htry & Hdw & Hsent).
  rewrite Htry in Hev.
  assert (∀ e, e ∈ new ++ sent → e ≠ SendClose ∧ ∀ level msg, e ≠ SendLogging level msg)
    as Hquiet.
  { intros e [He|He]%elem_of_app.
    - apply (debug_writes_no_send _ _ Hdw) in He. by destruct e.
    - apply (sent_images_inv _ _ Hsent) in He as [images ->]. done. }
  assert (∀ e, (receive config mrdHeader stream no_groups w).2.2 = Raise e →
               (try_block config mrdHeader stream w).2 = Raise e) as Hloop.
  { intros e He. unfold try_block.
    destruct (receive config mrdHeader stream no_groups w) as [w1 [g1 r1]].
    simpl in He. by subst r1. }
  destruct (process stream config mrdHeader w) as [w' r] eqn:Hp.
  simpl in Hret, Hev. subst r.
  destruct (try_block config mrdHeader stream w).2 as [[]|e].
  - exists w', (new ++ sent). split; [done|]. split.
    { rewrite Hev. simpl. by rewrite <- !app_assoc. }
    split; [|split; [done|]].
    + intros Hin. by apply Hquiet in Hin as [? _].
    + intros level msg Hin. destruct (Hquiet _ Hin) as [_ Hl]. by apply (Hl level msg).
  - exists w', ((new ++ sent) ++ [SendLogging MRD_LOGGING_ERROR (format_exc e)]).
    split; [done|]. split.
    { rewrite Hev. simpl. by rewrite <- !app_assoc. }
    split; [|split; [done|]].
    + intros [Hin|Hin]%elem_of_app.
      * by apply Hquiet in Hin as [? _].
      * apply list_elem_of_singleton in Hin. discriminate.
    + exists (new ++ sent). split; [done|].
      intros level msg Hin. destruct (Hquiet _ Hin) as [_ Hl]. by apply (Hl level msg).
Qed.

End ProcessClaims.


(** ** The claims on the sample platform *)

Section SampleRuns.
Import ismrmrd Sample.

Lemma run_returned (r : world * py (list (option Image))) :
  has_returned r = true → r = (r.1, Return (returned r)).
Proof. destruct r as [w [l|e]]; [done | discriminate]. Qed.

(** C1 as stated fails when the originals are sent back: output 0 is then
    the first input itself, whose sample 50.5 at [0, 0, 0, 1] is neither
    rounded nor cast. *)
Lemma original_pixels_are_not_converted :
  process_image "process" [magnitude; phase] with_originals header host
  = (originals_run.1, Return (returned originals_run)) ∧
  ¬ ∃ img,
      returned originals_run !! 0 = Some (Some img) ∧
      np.dtype_of (data img) = np.int16 ∧
      np.shape (data img) = np.shape (data magnitude) ∧
      ∀ c z y x, np.getitem (data img) [c; z; y; x]
                 = to_int16 <$> np.getitem (data magnitude) [c; z; y; x].
Proof.
  split; [apply (run_returned originals_run); vm_compute; reflexivity|].
  intros (img & Hout & _ & _ & Hget).
  assert (sample_0001 (returned originals_run !! 0) = Some (101 # 2)) as Hsample
    by (vm_compute; reflexivity).
  rewrite Hout in Hsample. simpl in Hsample.
  rewrite Hget in Hsample. vm_compute in Hsample. discriminate.
Qed.

(** The amended C1 at the same call: the image derived from the first input
    is output 2. *)
Lemma derived_pixels_witness :
  process_image "process" [magnitude; phase] with_originals header host
  = (originals_run.1, Return (returned originals_run)) ∧
  [magnitude; phase] !! 0 = Some magnitude ∧
  ∃ img,
    returned originals_run
      !! (prepended "process" with_originals (length [magnitude; phase]) + 0)
      = Some (Some img) ∧
    np.dtype_of (data img) = np.int16 ∧
    np.shape (data img) = np.shape (data magnitude) ∧
    ∀ c z y x, np.getitem (data img) [c; z; y; x]
               = to_int16 <$> np.getitem (data magnitude) [c; z; y; x].
Proof.
  split; [apply (run_returned originals_run); vm_compute; reflexivity|].
  split; [reflexivity|].
  apply (derived_pixels_are_converted_inputs
           "process" [magnitude; phase] with_originals header host
           originals_run.1 (returned originals_run)).
  - apply (run_returned originals_run). vm_compute. reflexivity.
  - reflexivity.
Defined.

(** C6 as stated fails at the same call: output 0 carries series index 99,
    whatever is allowed for its data type and image type. *)
Lemma original_header_is_renumbered :
  process_image "process" [magnitude; phase] with_originals header host
  = (originals_run.1, Return (returned originals_run)) ∧
  ¬ ∃ img t it,
      returned originals_run !! 0 = Some (Some img) ∧
      ismrmrd.head img = set_image_type it (set_data_type t (ismrmrd.head magnitude)).
Proof.
  split; [apply (run_returned originals_run); vm_compute; reflexivity|].
  intros (img & t & it & Hout & Hhead).
  assert (series_of (returned originals_run !! 0) = Some 99%Z) as Hseries
    by (vm_compute; reflexivity).
  rewrite Hout in Hseries. simpl in Hseries. rewrite Hhead in Hseries.
  vm_compute in Hseries. discriminate.
Qed.

(** The amended C6 at the same call, for the second input. *)
Lemma derived_header_witness :
  process_image "process" [magnitude; phase] with_originals header host
  = (originals_run.1, Return (returned originals_run)) ∧
  [magnitude; phase] !! 1 = Some phase ∧
  ∃ img,
    returned originals_run
      !! (prepended "process" with_originals (length [magnitude; phase]) + 1)
      = Some (Some img) ∧
    get_data_type_from_dtype (np.dtype_of (data img)) = Return DATATYPE_SHORT ∧
    ismrmrd.head img = set_data_type DATATYPE_SHORT (ismrmrd.head phase) ∧
    image_type (ismrmrd.head img) = image_type (ismrmrd.head phase) ∧
    image_series_index (ismrmrd.head img) = image_series_index (ismrmrd.head phase).
Proof.
  split; [apply (run_returned originals_run); vm_compute; reflexivity|].
  split; [reflexivity|].
  apply (derived_header_is_input_header
           "process" [magnitude; phase] with_originals header host
           originals_run.1 (returned originals_run)).
  - apply (run_returned originals_run). vm_compute. reflexivity.
  - reflexivity.
Defined.

(** C4 as stated fails on any non-empty group that is processed: the call
    makes the debug folder and saves /buildhostdirectory/test.nii, from
    [process_image] and from [process] alike. *)
Lemma process_image_writes_nifti :
  ¬ (∀ e, e ∈ events (process_image "process" [magnitude; phase] plain header host).1 →
          is_write e = false) ∧
  ¬ (∀ e, e ∈ events (process [Return (ItemImage magnitude)] plain header host).1 →
          is_write e = false).
Proof.
  split; intros Hnone.
  - assert (existsb is_write
              (events (process_image "process" [magnitude; phase] plain header host).1)
            = true) as Hsome by (vm_compute; reflexivity).
    apply existsb_exists in Hsome as (e & He & Hw).
    apply list_elem_of_In, Hnone in He. congruence.
  - assert (existsb is_write
              (events (process [Return (ItemImage magnitude)] plain header host).1)
            = true) as Hsome by (vm_compute; reflexivity).
    apply existsb_exists in Hsome as (e & He & Hw).
    apply list_elem_of_In, Hnone in He. congruence.
Qed.

(** C7 at the call with the originals. *)
Lemma output_count_witness :
  process_image "process" [magnitude; phase] with_originals header host
  = (originals_run.1, Return (returned originals_run)) ∧
  get_json_config_param_bool with_originals "sendoriginal" false = true ∧
  "process" ≠ "process_raw" ∧
  length (returned originals_run) = 2 * length [magnitude; phase] ∧
  ∀ i input, [magnitude; phase] !! i = Some input →
    (∃ m, Meta_deserialize (attribute_string input) = Return m ∧
          returned originals_run !! i = Some (Some
            {| ismrmrd.head := set_image_series_index 99 (ismrmrd.head input);
               data := data input;
               attribute_string :=
                 Meta_serialize (<["Keep_image_geometry" := MInt 1]> m) |})) ∧
    ∃ img, returned originals_run !! (length [magnitude; phase] + i) = Some (Some img) ∧
           np.shape (data img) = np.shape (data input).
Proof.
  split; [apply (run_returned originals_run); vm_compute; reflexivity|].
  split; [reflexivity|]. split; [discriminate|].
  apply (output_count_and_originals
           "process" [magnitude; phase] with_originals header host
           originals_run.1 (returned originals_run)).
  - apply (run_returned originals_run). vm_compute. reflexivity.
  - reflexivity.
  - discriminate.
Defined.

(** C10 at the call without originals. *)
Lemma derived_meta_witness :
  process_image "process" [magnitude; phase] plain header host
  = (derive_run.1, Return (returned derive_run)) ∧
  length (returned derive_run)
  = prepended "process" plain (length [magnitude; phase]) + length [magnitude; phase] ∧
  ∀ i, i < length [magnitude; phase] →
    ∃ img m,
      returned derive_run
        !! (prepended "process" plain (length [magnitude; phase]) + i)
        = Some (Some img) ∧
      attribute_string img = Meta_serialize m ∧
      m !! "DataRole" = Some (MStr "Image") ∧
      m !! "ImageProcessingHistory" = Some (MList ["PYTHON"; "AFIB1"]) ∧
      m !! "Keep_image_geometry" = Some (MInt 1) ∧
      m !! "WindowCenter" = Some (MStr "2048.0") ∧
      m !! "WindowWidth" = Some (MStr "4096").
Proof.
  split; [apply (run_returned derive_run); vm_compute; reflexivity|].
  apply (derived_meta_attributes
           "process" [magnitude; phase] plain header host
           derive_run.1 (returned derive_run)).
  apply (run_returned derive_run). vm_compute. reflexivity.
Defined.

End SampleRuns.


(** ** process_image: exactly which calls return *)

Section ProcessImageReturnsIff.
Context `{Platform}.
Import ismrmrd.

Lemma reslice_decodes data head meta config st i st' m :
  reslice data head meta config st i = Return st' →
  meta !! i = Some m →
  ∀ v, m !! "IceMiniHead" = Some v → ∃ s, b64decode_utf8 v = Return s.
Proof.
  destruct st as [imagesOut cs]. unfold reslice. intros Hr Hm v Hv.
  apply py_bind_Return in Hr as (sl & _ & Hr).
  apply py_bind_Return in Hr as (arr & _ & Hr).
  apply py_bind_Return in Hr as (out & _ & Hr).
  apply py_bind_Return in Hr as (oh & _ & Hr).
  apply py_bind_Return in Hr as (m' & Hm' & Hr).
  apply py_index_Return in Hm'. assert (m' = m) as -> by congruence.
  apply py_bind_Return in Hr as (cs' & Hs & _).
  unfold series_end, get_meta_value in Hs. rewrite Hv in Hs.
  apply py_bind_Return in Hs as (s & Hs & _). eauto.
Qed.

Lemma py_for_each {A S} (body : S → A → py S) (l : list A) : ∀ s s',
  py_for body l s = Return s' →
  ∀ a, a ∈ l → ∃ s1 s2, body s1 a = Return s2.
Proof.
  induction l as [|a l IH]; simpl; intros s s' Hfor a' Ha'.
  - by apply not_elem_of_nil in Ha'.
  - apply py_bind_Return in Hfor as (s1 & Hbody & Hfor).
    apply elem_of_cons in Ha' as [->|Ha']; [eauto|].
    eapply IH; eauto.
Qed.

Lemma stack_transposed_shape (arrays : list np.ndarray) (st t1 : np.ndarray) :
  np.stack arrays = Return st →
  np.transpose [3; 4; 0; 1; 2] st = Return t1 →
  ∃ c z y x, ∀ a, a ∈ arrays → np.shape a = [c; z; y; x].
Proof.
  intros Hst Ht1.
  apply stack_Return in Hst as (a0 & Ha0 & Hshape & Hsame & _).
  unfold np.transpose, np.ndim in Ht1. rewrite Hshape in Ht1.
  destruct (np.shape a0) as [|c [|z [|y [|x [|? ?]]]]] eqn:Hs0;
    simpl in Ht1; try discriminate.
  exists c, z, y, x. intros a [i Hi]%list_elem_of_lookup_1.
  by rewrite (Hsame _ _ Hi).
Qed.

Lemma voxel_sizes_Return (mrdHeader : MrdHeader) :
  voxel_sizes mrdHeader = Return () → sized mrdHeader.
Proof.
  unfold voxel_sizes, sized. destruct mrdHeader as [[|e encoding]|text]; try done.
  unfold py_index. simpl.
  destruct (fieldOfView_mm e) as [[fx fy] fz].
  destruct (matrixSize e) as [[mx my] mz] eqn:Hms. simpl. unfold truediv.
  destruct (Z.eqb_spec my 0); simpl; [done|].
  destruct (Z.eqb_spec mx 0); simpl; [done|].
  destruct (Z.eqb_spec mz 0); simpl; [done|].
  intros _. exists e, encoding. by rewrite Hms.
Qed.

Lemma process_image_needs caller (g : list Image) config mrdHeader w w' out :
  g ≠ [] →
  process_image caller g config mrdHeader w = (w', Return out) →
  processable g mrdHeader w.
Proof.
  intros Hg Hp. unfold process_image in Hp.
  destruct (Nat.eqb (length g) 0) eqn:Hlen.
  { apply Nat.eqb_eq, nil_length_inv in Hlen. done. }
  apply m_bind_Return in Hp as (w1 & there & Hthere & Hp).
  apply m_bind_Return in Hp as (w2 & [] & Hmk & Hp).
  apply m_bind_Return in Hp as (w3 & d0 & Hd0 & Hp).
  apply lift_Return in Hd0 as [-> Hd0].
  apply m_bind_Return in Hp as (w4 & st & Hst & Hp).
  apply lift_Return in Hst as [-> Hst].
  apply m_bind_Return in Hp as (w5 & meta & Hmeta & Hp).
  apply lift_Return in Hmeta as [-> Hmeta].
  apply m_bind_Return in Hp as (w6 & t1 & Ht1 & Hp).
  apply lift_Return in Ht1 as [-> Ht1].
  apply m_bind_Return in Hp as (w7 & [] & Hice & Hp).
  apply lift_Return in Hice as [-> _].
  apply m_bind_Return in Hp as (w8 & [] & Hseq & Hp).
  apply lift_Return in Hseq as [-> _].
  apply m_bind_Return in Hp as (w9 & [] & Hvox & Hp).
  apply lift_Return in Hvox as [-> Hvox].
  apply m_bind_Return in Hp as (w10 & [] & Hsave & Hp).
  apply m_bind_Return in Hp as (w11 & t2 & Ht2 & Hp).
  apply lift_Return in Ht2 as [-> Ht2].
  apply m_bind_Return in Hp as (w12 & n & Hn & Hp).
  apply lift_Return in Hn as [-> Hn].
  apply m_bind_Return in Hp as (w13 & loop & Hloop & Hp).
  apply lift_Return in Hloop as [-> Hloop].
  assert (n = length g) as ->.
  { rewrite <- (length_fmap data g). eapply shape_last_resliced; eauto. }
  destruct (py_map_Return _ _ _ Hmeta) as [Hmlen Hmnth].
  repeat split.
  - destruct (stack_transposed_shape _ _ _ Hst Ht1) as (c & z & y & x & Hsh).
    exists c, z, y, x. intros img Himg. apply Hsh. by apply list_elem_of_fmap_2.
  - intros img Himg. unfold py_index in Hd0. rewrite Himg in Hd0. eauto.
  - intros img [i Hi]%list_elem_of_lookup_1.
    destruct (Hmnth _ _ Hi) as (m & Hdes & Hm).
    exists m. split; [done|].
    assert (i ∈ seq 0 (length g)) as Hseq.
    { apply elem_of_seq. apply lookup_lt_Some in Hi. lia. }
    destruct (py_for_each _ _ _ _ Hloop i Hseq) as (s1 & s2 & Hbody).
    by eapply reslice_decodes.
  - by apply voxel_sizes_Return.
  - unfold nib_save in Hsave. case_bool_decide as Hin; [|done].
    unfold os_path_exists in Hthere. inversion Hthere; subst w1 there; clear Hthere.
    case_bool_decide; unfold m_ret, os_makedirs in Hmk; inversion Hmk; subst w2; [done|].
    simpl in Hin. apply elem_of_app in Hin as [Hin|Hin]; [done|].
    apply list_elem_of_singleton in Hin. discriminate.
Qed.

(** X1.  On a non-empty group [process_image] returns exactly when the
    images have one four-axis shape, the first image has a data type the
    SDK knows, the MetaAttributes of every image parse and their IceMiniHead
    decodes, the header is the parsed XML with a first encoding of non-zero
    matrix size, and the folder /buildhostdirectory exists; on every other
    input it raises. *)
Theorem process_image_returns_iff caller (img0 : Image) (rest : list Image)
    config mrdHeader w :
  (∃ w' out, process_image caller (img0 :: rest) config mrdHeader w = (w', Return out))
  ↔ processable (img0 :: rest) mrdHeader w.
Proof.
  split.
  - intros (w' & out & Hp). by eapply process_image_needs.
  - intros ((c & z & y & x & Hshape) & Htype & Hread & Hsized & Hdir).
    destruct Hsized as (e & encoding & -> & Hx & Hy & Hz).
    by eapply process_image_returns.
Qed.

End ProcessImageReturnsIff.


(** ** What is saved, and the MetaAttributes that pass through *)

Section SavedAndPassedThrough.
Context `{Platform}.
Import ismrmrd.

Lemma stack_transposed_samples (arrays : list np.ndarray) (st t1 : np.ndarray) :
  np.stack arrays = Return st →
  np.transpose [3; 4; 0; 1; 2] st = Return t1 →
  ∃ c z y x,
    (∀ a, a ∈ arrays → np.shape a = [c; z; y; x]) ∧
    np.shape t1 = [y; x; length arrays; c; z] ∧
    ∀ i a, arrays !! i = Some a →
      ∀ c' z' y' x', np.getitem t1 [y'; x'; i; c'; z'] = np.getitem a [c'; z'; y'; x'].
Proof.
  intros Hst Ht1.
  apply stack_Return in Hst as (a0 & Ha0 & Hshape & Hsame & Hget).
  unfold np.transpose, np.ndim in Ht1. rewrite Hshape in Ht1.
  destruct (np.shape a0) as [|c [|z [|y [|x [|? ?]]]]] eqn:Hs0;
    simpl in Ht1; try discriminate.
  inversion Ht1; subst t1; clear Ht1. simpl.
  exists c, z, y, x. split; [|split].
  - intros a [i Hi]%list_elem_of_lookup_1. by rewrite (Hsame _ _ Hi).
  - done.
  - intros i a Hi c' z' y' x'. rewrite Hget, Hi. done.
Qed.

(** The one array [process_image] saves is the transposed stack. *)
Lemma saved_array caller (g : list Image) config mrdHeader w :
  ∃ new,
    events (process_image caller g config mrdHeader w).1 = events w ++ new ∧
    ∀ p a, NibSave p a ∈ new →
      p = test_nii ∧
      ∃ st, np.stack (data <$> g) = Return st ∧
            np.transpose [3; 4; 0; 1; 2] st = Return a.
Proof.
  unfold process_image. destruct (Nat.eqb (length g) 0) eqn:Hg.
  - exists []. simpl. rewrite app_nil_r. split; [done|].
    intros p a Hin. by apply not_elem_of_nil in Hin.
  - unfold m_bind, os_path_exists, os_makedirs, lift, nib_save, m_ret.
    repeat case_match; simplify_eq; simpl;
      (eexists; split; [rewrite <- ?app_assoc; try reflexivity; by rewrite app_nil_r|]);
      intros p a Hin; apply list_elem_of_In in Hin; simpl in Hin;
      intuition (simplify_eq; eauto).
Qed.

(** X2.  Whatever else happens in the call, a NIfTI file that
    [process_image] saves is /buildhostdirectory/test.nii and holds the
    input samples as they came, before any conversion, in the order
    [y x img cha z]: the sample of image [i] at [cha z y x] is at
    [y x i cha z]. *)
Theorem saved_nifti_is_the_stack caller (g : list Image) config mrdHeader w :
  ∃ new,
    events (process_image caller g config mrdHeader w).1 = events w ++ new ∧
    ∀ p a, NibSave p a ∈ new →
      p = test_nii ∧
      ∃ c z y x,
        (∀ img, img ∈ g → np.shape (data img) = [c; z; y; x]) ∧
        np.shape a = [y; x; length g; c; z] ∧
        ∀ i img, g !! i = Some img →
          ∀ c' z' y' x',
            np.getitem a [y'; x'; i; c'; z'] = np.getitem (data img) [c'; z'; y'; x'].
Proof.
  destruct (saved_array caller g config mrdHeader w) as (new & Hev & Hsaved).
  exists new. split; [done|]. intros p a Hin.
  destruct (Hsaved p a Hin) as (-> & st & Hst & Ht1). split; [done|].
  destruct (stack_transposed_samples _ _ _ Hst Ht1)
    as (c & z & y & x & Hshape & Hs1 & Hget).
  exists c, z, y, x. rewrite length_fmap in Hs1. split; [|split; [done|]].
  - intros img Himg. apply Hshape. by apply list_elem_of_fmap_2.
  - intros i img Hi. apply Hget. by rewrite list_lookup_fmap, Hi.
Qed.

(** What [update_meta] does to each key. *)
Lemma update_meta_other config data_shape oldHeader (m : Meta) (k : string) :
  k ∉ written_keys → update_meta config data_shape oldHeader m !! k = m !! k.
Proof.
  unfold written_keys. intros Hk.
  repeat (apply not_elem_of_cons in Hk as [? Hk]).
  unfold update_meta. repeat case_match; by simplify_map_eq.
Qed.

Lemma update_meta_dirs config data_shape oldHeader (m : Meta) :
  let m' := update_meta config data_shape oldHeader m in
  m' !! "SequenceDescriptionAdditional" = Some (MStr "AFI B1+ Map") ∧
  m' !! "ImageRowDir"
    = Some (default (dir_strings (read_dir oldHeader)) (m !! "ImageRowDir")) ∧
  m' !! "ImageColumnDir"
    = Some (default (dir_strings (phase_dir oldHeader)) (m !! "ImageColumnDir")).
Proof.
  unfold update_meta.
  repeat case_match; repeat split; simplify_map_eq; try done;
    by repeat match goal with Hm : m !! _ = _ |- _ => rewrite Hm end.
Qed.

Lemma update_meta_options config data_shape oldHeader (m : Meta) :
  let m' := update_meta config data_shape oldHeader m in
  m' !! "ROI_example"
    = (if bool_decide (options config = Some (JStr "roi"))
       then Some (MList (create_example_roi data_shape))
       else m !! "ROI_example") ∧
  m' !! "LUTFileName"
    = (if bool_decide (options config = Some (JStr "colormap"))
       then Some (MStr "MicroDeltaHotMetal.pal")
       else m !! "LUTFileName").
Proof.
  unfold update_meta, options. destruct (parameters config) as [p|]; simpl.
  2:{ repeat case_match; split; by simplify_map_eq. }
  destruct (p !! "options") as [o|]; simpl.
  2:{ repeat case_match; split; by simplify_map_eq. }
  repeat case_bool_decide; simplify_eq; repeat case_match; split; by simplify_map_eq.
Qed.

(** One derived image, its MetaAttributes seen from the input's. *)
Lemma derived_meta_from_input caller (g : list Image) config mrdHeader w w' out
    (i : nat) (input : Image) :
  process_image caller g config mrdHeader w = (w', Return out) →
  g !! i = Some input →
  ∃ img m c z y x,
    out !! (prepended caller config (length g) + i) = Some (Some img) ∧
    Meta_deserialize (attribute_string input) = Return m ∧
    np.shape (data input) = [c; z; y; x] ∧
    attribute_string img =
      Meta_serialize
        (update_meta config [y; x; z; c; length g]
           (set_data_type DATATYPE_SHORT (ismrmrd.head input)) m).
Proof.
  intros Hp Hin.
  assert (g ≠ []) as Hg by (intros ->; done).
  destruct (process_image_Return _ _ _ _ _ _ _ Hg Hp)
    as (st & t1 & t2 & meta & Hst & Ht1 & Ht2 & Hmeta & _ & Hder & _).
  destruct (Hder i) as (img & Himg & Hout); [by eapply lookup_lt_Some|].
  destruct (derived_from_input _ _ _ _ _ _ _ _ Hst Ht1 Ht2 Himg)
    as (input' & m & Hin' & Hm & _ & _ & _ & _ & Hattr).
  assert (input' = input) as -> by congruence.
  destruct (py_map_Return _ _ _ Hmeta) as [_ Hnth].
  destruct (Hnth _ _ Hin) as (m' & Hdes & Hm').
  assert (m' = m) as -> by congruence.
  destruct (stack_transposed_samples _ _ _ Hst Ht1)
    as (c & z & y & x & Hshape & Hs1 & _).
  assert (np.shape t2 = [y; x; z; c; length g]) as Hs2.
  { unfold np.transpose, np.ndim in Ht2. rewrite Hs1 in Ht2. simpl in Ht2.
    inversion Ht2; subst t2. simpl. by rewrite length_fmap. }
  exists img, m, c, z, y, x. split; [done|]. split; [done|]. split.
  - apply Hshape. apply list_elem_of_fmap_2. by eapply list_elem_of_lookup_2.
  - rewrite Hattr. simpl. by rewrite Hs2.
Qed.

(** X3.  Whenever [process_image] returns, the MetaAttributes of the image
    derived from input [i] are those of input [i] on every key the loop does
    not write; SequenceDescriptionAdditional is 'AFI B1+ Map'; ImageRowDir
    and ImageColumnDir are kept when the input has them and are otherwise
    the header's [read_dir] and [phase_dir], formatted. *)
Theorem derived_meta_passes_through caller (g : list Image) config mrdHeader w w' out :
  process_image caller g config mrdHeader w = (w', Return out) →
  ∀ i input, g !! i = Some input →
    ∃ img m m',
      out !! (prepended caller config (length g) + i) = Some (Some img) ∧
      Meta_deserialize (attribute_string input) = Return m ∧
      attribute_string img = Meta_serialize m' ∧
      (∀ k, k ∉ written_keys → m' !! k = m !! k) ∧
      m' !! "SequenceDescriptionAdditional" = Some (MStr "AFI B1+ Map") ∧
      m' !! "ImageRowDir"
        = Some (default (dir_strings (read_dir (ismrmrd.head input)))
                        (m !! "ImageRowDir")) ∧
      m' !! "ImageColumnDir"
        = Some (default (dir_strings (phase_dir (ismrmrd.head input)))
                        (m !! "ImageColumnDir")).
Proof.
  intros Hp i input Hin.
  destruct (derived_meta_from_input _ _ _ _ _ _ _ _ _ Hp Hin)
    as (img & m & c & z & y & x & Hout & Hdes & _ & Hattr).
  eexists img, m, _. split; [done|]. split; [done|]. split; [exact Hattr|].
  split; [intros k Hk; by apply update_meta_other|].
  apply (update_meta_dirs config _ (set_data_type DATATYPE_SHORT (ismrmrd.head input))).
Qed.

(** X4.  Whenever [process_image] returns, the derived image of an input of
    shape [cha z y x] gets ROI_example, the example ROI for the size
    [y x z cha len(imgGroup)], exactly when the configuration's options are
    'roi', and LUTFileName = 'MicroDeltaHotMetal.pal' exactly when they are
    'colormap'; otherwise each of the two keys is as in the input. *)
Theorem derived_meta_follows_options caller (g : list Image) config mrdHeader w w' out :
  process_image caller g config mrdHeader w = (w', Return out) →
  ∀ i input, g !! i = Some input →
    ∃ img m m' c z y x,
      out !! (prepended caller config (length g) + i) = Some (Some img) ∧
      Meta_deserialize (attribute_string input) = Return m ∧
      attribute_string img = Meta_serialize m' ∧
      np.shape (data input) = [c; z; y; x] ∧
      m' !! "ROI_example"
        = (if bool_decide (options config = Some (JStr "roi"))
           then Some (MList (create_example_roi [y; x; z; c; length g]))
           else m !! "ROI_example") ∧
      m' !! "LUTFileName"
        = (if bool_decide (options config = Some (JStr "colormap"))
           then Some (MStr "MicroDeltaHotMetal.pal")
           else m !! "LUTFileName").
Proof.
  intros Hp i input Hin.
  destruct (derived_meta_from_input _ _ _ _ _ _ _ _ _ Hp Hin)
    as (img & m & c & z & y & x & Hout & Hdes & Hshape & Hattr).
  eexists img, m, _, c, z, y, x.
  split; [done|]. split; [done|]. split; [exact Hattr|]. split; [done|].
  apply update_meta_options.
Qed.

End SavedAndPassedThrough.


(** ** process over whole streams *)

Section StreamFacts.
Context `{Platform}.
Import ismrmrd.

Lemma receive_None config mrdHeader (pre post : list (py item)) : ∀ g w,
  receive config mrdHeader (pre ++ Return ItemNone :: post) g w
  = receive config mrdHeader pre g w.
Proof.
  induction pre as [|[it|e] pre IH]; intros g w; simpl; try done.
  destruct (loop_body config mrdHeader g it w) as [w1 [g1 [| |e]]]; [apply IH|done|done].
Qed.

Lemma receive_unsupported config mrdHeader (stream : list (py item)) : ∀ g w,
  receive config mrdHeader (List.filter (fun step => negb (is_unsupported step)) stream) g w
  = receive config mrdHeader stream g w.
Proof.
  induction stream as [|[it|e] stream IH]; intros g w; simpl; try done.
  destruct it as [a|img|wav| |name]; simpl; try apply IH; try done.
  - destruct (is_flag_set a ACQ_LAST_IN_SLICE); [done|apply IH].
Qed.

Lemma receive_plain config mrdHeader (items : list item) (rest : list (py item)) : ∀ g w,
  forallb is_plain items = true →
  receive config mrdHeader ((Return <$> items) ++ rest) g w
  = receive config mrdHeader rest
      {| acqGroup := acqGroup g;
         imgGroup := imgGroup g ++ images_of items;
         waveformGroup := waveformGroup g ++ waveforms_of items |} w.
Proof.
  induction items as [|it items IH]; intros g w Hplain; simpl.
  - rewrite !app_nil_r. by destruct g.
  - simpl in Hplain. apply andb_true_iff in Hplain as [Hit Hplain].
    destruct it as [a|img|wav| |name]; try discriminate; simpl;
      rewrite (IH _ _ Hplain); simpl; by rewrite <- ?app_assoc.
Qed.

Lemma process_of_receive stream stream' config mrdHeader w :
  receive config mrdHeader stream no_groups w
  = receive config mrdHeader stream' no_groups w →
  process stream config mrdHeader w = process stream' config mrdHeader w.
Proof. unfold process, try_block. by intros ->. Qed.

(** X5.  [None] ends the stream: what the connection yields after it is
    never looked at, and the call goes on as if the stream had ended
    there. *)
Theorem none_ends_the_stream (pre post : list (py item)) config mrdHeader w :
  process (pre ++ Return ItemNone :: post) config mrdHeader w
  = process pre config mrdHeader w.
Proof. apply process_of_receive, receive_None. Qed.

(** X6.  Items of an unsupported type have no effect on the call: the
    stream without them is processed in the same way. *)
Theorem unsupported_items_are_skipped (stream : list (py item)) config mrdHeader w :
  process (List.filter (fun step => negb (is_unsupported step)) stream) config mrdHeader w
  = process stream config mrdHeader w.
Proof. apply process_of_receive, receive_unsupported. Qed.

Lemma process_plain (items : list item) (rest : list (py item)) config mrdHeader w :
  forallb is_plain items = true →
  process ((Return <$> items) ++ rest) config mrdHeader w
  = let '(w1, r) :=
      match receive config mrdHeader rest
              {| acqGroup := []; imgGroup := images_of items;
                 waveformGroup := waveforms_of items |} w with
      | (w', (g, Return _)) => flush config mrdHeader g w'
      | (w', (_, Raise e)) => (w', Raise e)
      end in
    match r with
    | Return _ => closes w1 [SendClose]
    | Raise e => closes w1 [SendLogging MRD_LOGGING_ERROR (format_exc e); SendClose]
    end.
Proof.
  intros Hplain. unfold process, try_block.
  rewrite (receive_plain _ _ _ _ _ _ Hplain). simpl.
  destruct (receive _ _ rest _ w) as [w' [g [[]|e]]].
  - destruct (flush config mrdHeader g w') as [w1 [[]|e]]; unfold closes; simpl; [done|].
    by rewrite <- app_assoc.
  - unfold closes. simpl. by rewrite <- app_assoc.
Qed.

(** What [process] does on such a stream, the flush unfolded. *)
Lemma process_plain_stream (items : list item) config mrdHeader w :
  forallb is_plain items = true →
  process (Return <$> items) config mrdHeader w =
    match ecg (waveforms_of items) with
    | Raise e => closes w [SendLogging MRD_LOGGING_ERROR (format_exc e); SendClose]
    | Return _ =>
        if Nat.ltb 0 (length (images_of items)) then
          match process_image "process" (images_of items) config mrdHeader w with
          | (w1, Return out) => closes w1 [SendImage out; SendClose]
          | (w1, Raise e) =>
              closes w1 [SendLogging MRD_LOGGING_ERROR (format_exc e); SendClose]
          end
        else closes w [SendClose]
    end.
Proof.
  intros Hplain.
  rewrite <- (app_nil_r (Return <$> items)), (process_plain _ _ _ _ _ Hplain). simpl.
  unfold flush, m_bind, lift. simpl.
  destruct (ecg (waveforms_of items)) as [[]|e]; [|done].
  destruct (Nat.ltb 0 (length (images_of items))); [|done].
  destruct (process_image "process" (images_of items) config mrdHeader w)
    as [w1 [out|e]]; [|done].
  unfold closes, send_image, emit. simpl. by rewrite <- app_assoc.
Qed.

(** X7.  On a stream of images, waveforms and unsupported items that runs
    to its end, [process] first concatenates the ECG waveforms, then hands
    all the images, in their order of arrival, to one call of
    [process_image] and sends what that returns in one message; whatever
    raises on the way is logged instead; the close comes last.  With no
    image in the stream nothing is sent but the close. *)
Theorem process_without_acquisitions (items : list item) config mrdHeader w :
  forallb is_plain items = true →
  process (Return <$> items) config mrdHeader w =
    match ecg (waveforms_of items) with
    | Raise e => closes w [SendLogging MRD_LOGGING_ERROR (format_exc e); SendClose]
    | Return _ =>
        if Nat.ltb 0 (length (images_of items)) then
          match process_image "process" (images_of items) config mrdHeader w with
          | (w1, Return out) => closes w1 [SendImage out; SendClose]
          | (w1, Raise e) =>
              closes w1 [SendLogging MRD_LOGGING_ERROR (format_exc e); SendClose]
          end
        else closes w [SendClose]
    end.
Proof. apply process_plain_stream. Qed.

(** X9.  When the connection raises in the middle of such a stream, the
    images received so far are dropped: nothing is processed, written or
    sent, the error is logged and the connection closed. *)
Theorem stream_error_drops_the_images (items : list item) (e : exn)
    (post : list (py item)) config mrdHeader w :
  forallb is_plain items = true →
  process ((Return <$> items) ++ Raise e :: post) config mrdHeader w
  = closes w [SendLogging MRD_LOGGING_ERROR (format_exc e); SendClose].
Proof. intros Hplain. by rewrite (process_plain _ _ _ _ _ Hplain). Qed.

Lemma images_of_images (imgs : list Image) : images_of (ItemImage <$> imgs) = imgs.
Proof. induction imgs as [|img imgs IH]; simpl; [done|]. f_equal. exact IH. Qed.

Lemma waveforms_of_images (imgs : list Image) : waveforms_of (ItemImage <$> imgs) = [].
Proof. induction imgs as [|img imgs IH]; simpl; [done|exact IH]. Qed.

Lemma plain_images (imgs : list Image) : forallb is_plain (ItemImage <$> imgs) = true.
Proof. induction imgs as [|img imgs IH]; simpl; [done|exact IH]. Qed.

(** X8.  A stream of images that [process_image] can process gets its
    images back: the call sends one message, with one derived image per
    input and, when sendoriginal is set, the inputs in front of them, then
    closes; no error is logged. *)
Theorem processable_images_are_sent_back (img0 : Image) (rest : list Image)
    config mrdHeader w :
  processable (img0 :: rest) mrdHeader w →
  ∃ w1 out,
    process_image "process" (img0 :: rest) config mrdHeader w = (w1, Return out) ∧
    process (Return <$> (ItemImage <$> img0 :: rest)) config mrdHeader w
    = closes w1 [SendImage out; SendClose] ∧
    length out
    = (if get_json_config_param_bool config "sendoriginal" false then 2 else 1)
      * length (img0 :: rest).
Proof.
  intros ((c & z & y & x & Hshape) & Htype & Hread & Hsized & Hdir).
  destruct Hsized as (e & encoding & -> & Hx & Hy & Hz).
  destruct (process_image_returns "process" (img0 :: rest) config w c z y x e encoding)
    as (w1 & out & Hp); try done.
  exists w1, out. split; [done|]. split.
  - rewrite (process_plain_stream _ _ _ _ (plain_images (img0 :: rest))).
    rewrite waveforms_of_images, images_of_images. simpl ecg. cbv iota.
    replace (Nat.ltb 0 (length (img0 :: rest))) with true by done.
    by rewrite Hp.
  - assert (img0 :: rest ≠ []) as Hg by done.
    destruct (process_image_Return _ _ _ _ _ _ _ Hg Hp)
      as (_ & _ & _ & _ & _ & _ & _ & _ & Hlen & _).
    rewrite Hlen. unfold prepended.
    destruct (get_json_config_param_bool config "sendoriginal" false); simpl; lia.
Qed.

End StreamFacts.


(** ** The waveform group *)

Section WaveformFacts.
Context `{Platform}.
Import ismrmrd.

Lemma insert_by_time_perm (wav : Waveform) (l : list Waveform) :
  insert_by_time wav l ≡ₚ wav :: l.
Proof.
  induction l as [|x l IH]; simpl; [done|].
  destruct (Z.leb (time_stamp wav) (time_stamp x)); [done|].
  rewrite IH. apply Permutation_swap.
Qed.

Lemma sort_by_time_perm (l : list Waveform) : sort_by_time l ≡ₚ l.
Proof.
  induction l as [|x l IH]; simpl; [done|].
  by rewrite insert_by_time_perm, IH.
Qed.

Lemma insert_by_time_sorted (wav : Waveform) (l : list Waveform) :
  StronglySorted by_time l → StronglySorted by_time (insert_by_time wav l).
Proof.
  induction 1 as [|x l Hl IH Hx]; simpl; [repeat constructor|].
  destruct (Z.leb_spec (time_stamp wav) (time_stamp x)) as [Hle|Hgt].
  - constructor; [by constructor|]. constructor; [done|].
    eapply Forall_impl; [exact Hx|]. unfold by_time. intros y Hy. lia.
  - constructor; [done|]. rewrite insert_by_time_perm.
    constructor; [unfold by_time; lia | done].
Qed.

Lemma sort_by_time_sorted (l : list Waveform) : StronglySorted by_time (sort_by_time l).
Proof.
  induction l as [|x l IH]; simpl; [constructor|]. by apply insert_by_time_sorted.
Qed.

(** X11.  The sort of line 118 keeps the waveforms of the group and puts
    them in order of time stamp. *)
Theorem sort_by_time_sorts (l : list Waveform) :
  sort_by_time l ≡ₚ l ∧ StronglySorted by_time (sort_by_time l).
Proof. split; [apply sort_by_time_perm | apply sort_by_time_sorted]. Qed.

Lemma insert_by_time_first (wav : Waveform) (l : list Waveform) :
  Forall (by_time wav) l → insert_by_time wav l = wav :: l.
Proof.
  destruct l as [|x l]; [done|]. intros Hall. simpl.
  apply Forall_cons in Hall as [Hx _]. unfold by_time in Hx.
  apply Z.leb_le in Hx. by rewrite Hx.
Qed.

(** Selecting waveforms from a sorted group and inserting commute. *)
Lemma filter_insert_by_time (P : Waveform → Prop) `{∀ x, Decision (P x)}
    (wav : Waveform) (l : list Waveform) :
  StronglySorted by_time l →
  filter P (insert_by_time wav l)
  = if decide (P wav) then insert_by_time wav (filter P l) else filter P l.
Proof.
  induction 1 as [|x l Hl IH Hx]; simpl.
  - rewrite filter_cons. by destruct (decide (P wav)).
  - destruct (Z.leb_spec (time_stamp wav) (time_stamp x)) as [Hle|Hgt].
    + rewrite (filter_cons _ wav). destruct (decide (P wav)) as [Hp|Hp]; [|done].
      rewrite insert_by_time_first; [done|].
      apply Forall_forall. intros y [_ Hy]%list_elem_of_filter.
      apply elem_of_cons in Hy as [->|Hy]; [done|].
      rewrite Forall_forall in Hx. specialize (Hx y Hy). unfold by_time in *. lia.
    + rewrite (filter_cons _ x), IH, (filter_cons _ x).
      destruct (decide (P x)) as [Hpx|Hpx], (decide (P wav)) as [Hp|Hp]; try done.
      simpl. destruct (Z.leb_spec (time_stamp wav) (time_stamp x)); [lia|done].
Qed.

Lemma filter_sort_by_time (P : Waveform → Prop) `{∀ x, Decision (P x)}
    (l : list Waveform) :
  filter P (sort_by_time l) = sort_by_time (filter P l).
Proof.
  induction l as [|x l IH]; simpl; [done|].
  rewrite filter_insert_by_time by apply sort_by_time_sorted.
  rewrite filter_cons, IH. by destruct (decide (P x)).
Qed.

(** Only the ECG waveforms, those of id 0, count for lines 117-121. *)
Lemma ecg_filter (l : list Waveform) :
  ecg (filter (fun wav => waveform_id wav = 0%Z) l) = ecg l.
Proof.
  unfold ecg.
  rewrite !filter_sort_by_time, list_filter_filter.
  rewrite (list_filter_iff
             (fun wav => waveform_id wav = 0%Z ∧ waveform_id wav = 0%Z)
             (fun wav => waveform_id wav = 0%Z)) by (intros ?; tauto).
  destruct (filter (fun wav => waveform_id wav = 0%Z) l) as [|x' l'] eqn:Hl'.
  - simpl. by destruct (Nat.ltb 0 (length l)).
  - destruct l as [|x l]; [done|]. done.
Qed.

End WaveformFacts.

(** ** process: waveforms that are not ECG, acquisitions, the whole trace *)

Section StreamFactsMore.
Context `{Platform}.
Import ismrmrd.

Lemma receive_other_waveforms config mrdHeader (stream : list (py item)) : ∀ g g' w,
  same_but_waveforms g g' →
  ∃ g1 g1' r,
    receive config mrdHeader stream g w = (w, (g1, r)) ∧
    receive config mrdHeader
      (List.filter (fun step => negb (is_other_waveform step)) stream) g' w
    = (w, (g1', r)) ∧
    same_but_waveforms g1 g1'.
Proof.
  induction stream as [|[it|e] stream IH]; intros g g' w Hsame; simpl.
  - by exists g, g', (Return tt).
  - destruct Hsame as (Hacq & Himg & Hwav).
    destruct it as [a|img|wav| |name]; simpl.
    + destruct (is_flag_set a ACQ_LAST_IN_SLICE).
      * eexists _, _, _. split; [done|]. split; [done|].
        unfold same_but_waveforms. destruct (is_imaging a); simpl; by rewrite ?Hacq.
      * apply IH. unfold same_but_waveforms.
        destruct (is_imaging a); simpl; by rewrite ?Hacq.
    + apply IH. unfold same_but_waveforms. simpl. by rewrite Himg.
    + destruct (Z.eqb_spec (waveform_id wav) 0) as [Hid|Hid]; simpl.
      * apply IH. unfold same_but_waveforms. simpl.
        rewrite filter_app, filter_cons_True by done. by rewrite Hwav.
      * apply IH. unfold same_but_waveforms. simpl.
        rewrite filter_app, filter_cons_False, app_nil_r by done. done.
    + by exists g, g', (Return tt).
    + by apply IH.
  - by exists g, g', (Raise e).
Qed.

Lemma flush_same_but_waveforms config mrdHeader (g g' : groups) w :
  same_but_waveforms g g' →
  flush config mrdHeader g' w = flush config mrdHeader g w.
Proof.
  intros (Hacq & Himg & Hwav). unfold flush.
  by rewrite Hacq, Himg, Hwav, ecg_filter.
Qed.

(** X12.  Waveforms whose id is not 0 have no effect on the call: the
    stream without them is processed in the same way. *)
Theorem other_waveforms_are_ignored (stream : list (py item)) config mrdHeader w :
  process (List.filter (fun step => negb (is_other_waveform step)) stream)
          config mrdHeader w
  = process stream config mrdHeader w.
Proof.
  destruct (receive_other_waveforms config mrdHeader stream no_groups no_groups w)
    as (g1 & g1' & r & Hfull & Hless & Hsame); [done|].
  unfold process, try_block. rewrite Hfull, Hless.
  destruct r as [[]|e]; [|done].
  by rewrite (flush_same_but_waveforms _ _ _ _ _ Hsame).
Qed.

(** With an acquisition in the group, the flush stops at [process_raw]. *)
Lemma flush_blocked config mrdHeader (g : groups) w :
  acqGroup g ≠ [] → ∃ e, flush config mrdHeader g w = (w, Raise e).
Proof.
  intros Hacq. unfold flush, m_bind, lift, process_raw.
  destruct (ecg (waveformGroup g)) as [[]|e]; [|by eexists].
  destruct (acqGroup g); [done|]. simpl. by eexists.
Qed.

Lemma receive_keeps_acquisitions config mrdHeader (stream : list (py item)) : ∀ g w,
  acqGroup g ≠ [] →
  ∃ g' r, receive config mrdHeader stream g w = (w, (g', r)) ∧ acqGroup g' ≠ [].
Proof.
  induction stream as [|[it|e] stream IH]; intros g w Hacq; simpl.
  - by eexists _, _.
  - destruct it as [a|img|wav| |name]; simpl; try (by apply IH); try (by eexists _, _).
    assert (acqGroup (if is_imaging a
                      then {| acqGroup := acqGroup g ++ [a]; imgGroup := imgGroup g;
                              waveformGroup := waveformGroup g |}
                      else g) ≠ []) as Hacq'.
    { destruct (is_imaging a); [simpl|done]. by destruct (acqGroup g). }
    destruct (is_flag_set a ACQ_LAST_IN_SLICE); [by eexists _, _|by apply IH].
  - by eexists _, _.
Qed.

(** From an acquisition that is kept or that ends a slice, the [try] block
    can only raise, with the world as it was. *)
Lemma blocked_from_acquisition config mrdHeader (a : Acquisition)
    (post : list (py item)) (g : groups) w :
  is_imaging a || is_flag_set a ACQ_LAST_IN_SLICE = true →
  ∃ e,
    match receive config mrdHeader (Return (ItemAcquisition a) :: post) g w with
    | (w', (g', Return _)) => flush config mrdHeader g' w'
    | (w', (_, Raise e)) => (w', Raise e)
    end = (w, Raise e).
Proof.
  intros Hflags. simpl.
  destruct (is_flag_set a ACQ_LAST_IN_SLICE); [by eexists|].
  rewrite orb_false_r in Hflags. rewrite Hflags.
  destruct (receive_keeps_acquisitions config mrdHeader post
              {| acqGroup := acqGroup g ++ [a]; imgGroup := imgGroup g;
                 waveformGroup := waveformGroup g |} w) as (g' & r & -> & Hacq).
  { simpl. by destruct (acqGroup g). }
  destruct r as [[]|e]; [by apply flush_blocked | by eexists].
Qed.

Lemma receive_before_none config mrdHeader (pre rest : list (py item)) : ∀ g w,
  forallb (fun step => negb (is_none step)) pre = true →
  (∃ g' e, receive config mrdHeader (pre ++ rest) g w = (w, (g', Raise e))) ∨
  (∃ g1, receive config mrdHeader (pre ++ rest) g w = receive config mrdHeader rest g1 w).
Proof.
  induction pre as [|[it|e] pre IH]; intros g w Hpre; simpl.
  - right. by exists g.
  - simpl in Hpre. apply andb_true_iff in Hpre as [Hit Hpre].
    destruct it as [a|img|wav| |name]; simpl; try (by apply IH); [|discriminate].
    destruct (is_flag_set a ACQ_LAST_IN_SLICE); [left; by eexists _, _|by apply IH].
  - left. by eexists _, _.
Qed.

(** X10.  An acquisition that is kept for imaging or that ends a slice,
    met before any [None], stops the whole call: nothing is processed,
    written or sent, images of the same stream included; one error is
    logged and the connection closed. *)
Theorem acquisition_blocks_the_call (pre post : list (py item)) (a : Acquisition)
    config mrdHeader w :
  forallb (fun step => negb (is_none step)) pre = true →
  is_imaging a || is_flag_set a ACQ_LAST_IN_SLICE = true →
  ∃ msg,
    process (pre ++ Return (ItemAcquisition a) :: post) config mrdHeader w
    = closes w [SendLogging MRD_LOGGING_ERROR msg; SendClose].
Proof.
  intros Hpre Hflags. unfold process, try_block.
  destruct (receive_before_none config mrdHeader pre
              (Return (ItemAcquisition a) :: post) no_groups w Hpre)
    as [(g' & e & ->)|(g1 & ->)].
  - exists (format_exc e). unfold closes. simpl. by rewrite <- app_assoc.
  - destruct (blocked_from_acquisition config mrdHeader a post g1 w Hflags) as [e ->].
    exists (format_exc e). unfold closes. simpl. by rewrite <- app_assoc.
Qed.

(** The events of the flush with its outcome. *)
Lemma flush_trace config mrdHeader (g : groups) w :
  ∃ writes,
    debug_writes writes ∧
    match flush config mrdHeader g w with
    | (w', Return _) =>
        events w' = events w ++ writes ∨
        ∃ out, events w' = events w ++ writes ++ [SendImage out]
    | (w', Raise _) => events w' = events w ++ writes
    end.
Proof.
  unfold flush, m_bind, lift, process_raw.
  destruct (ecg (waveformGroup g)) as [[]|e].
  2:{ exists []. rewrite app_nil_r. unfold debug_writes. eauto. }
  destruct (Nat.ltb 0 (length (acqGroup g))).
  { exists []. simpl. rewrite app_nil_r. unfold debug_writes. eauto. }
  simpl. destruct (Nat.ltb 0 (length (imgGroup g))).
  2:{ exists []. simpl. rewrite app_nil_r. unfold debug_writes. eauto. }
  destruct (process_image_events "process" (imgGroup g) config mrdHeader w)
    as (new & Hev & Hdw & _).
  destruct (process_image "process" (imgGroup g) config mrdHeader w)
    as [w1 [images|e]]; simpl in Hev |- *; exists new; (split; [done|]).
  - right. exists images. by rewrite Hev, <- app_assoc.
  - done.
Qed.

(** X13.  The events of a call of [process] are, in this order: the disk
    writes of [process_image], then either one message of images or one
    logged error or neither, then the close.  Images are never sent in more
    than one message, and never in a call that logs an error. *)
Theorem process_trace (stream : list (py item)) config mrdHeader w :
  ∃ writes tail,
    (process stream config mrdHeader w).2 = Return tt ∧
    events (process stream config mrdHeader w).1 = events w ++ writes ++ tail ∧
    debug_writes writes ∧
    (tail = [SendClose] ∨
     (∃ out, tail = [SendImage out; SendClose]) ∨
     (∃ msg, tail = [SendLogging MRD_LOGGING_ERROR msg; SendClose])).
Proof.
  unfold process, try_block.
  pose proof (receive_world config mrdHeader stream no_groups w) as Hw.
  destruct (receive config mrdHeader stream no_groups w) as [w1 [g [[]|e]]];
    simpl in Hw; subst w1.
  - destruct (flush_trace config mrdHeader g w) as (writes & Hdw & Hev).
    destruct (flush config mrdHeader g w) as [w' [[]|e]]; simpl.
    + destruct Hev as [Hev|[out Hev]]; rewrite Hev.
      * exists writes, [SendClose]. rewrite <- app_assoc. eauto 10.
      * exists writes, [SendImage out; SendClose]. rewrite <- !app_assoc. eauto 10.
    + exists writes, [SendLogging MRD_LOGGING_ERROR (format_exc e); SendClose].
      rewrite Hev, <- !app_assoc. eauto 10.
  - exists [], [SendLogging MRD_LOGGING_ERROR (format_exc e); SendClose].
    simpl. rewrite <- app_assoc. unfold debug_writes. eauto 10.
Qed.

End StreamFactsMore.


(** ** The header is only checked *)

Section HeaderOnlyChecked.
Context `{Platform}.
Import ismrmrd.

Lemma sized_passes (mrdHeader : MrdHeader) :
  sized mrdHeader →
  sequence_parameters mrdHeader = Return () ∧ voxel_sizes mrdHeader = Return ().
Proof.
  intros (e & encoding & -> & Hx & Hy & Hz). split; [done|].
  unfold voxel_sizes, py_index. simpl.
  destruct (fieldOfView_mm e) as [[fx fy] fz].
  destruct (matrixSize e) as [[mx my] mz]. simpl in *. unfold truediv.
  apply Z.eqb_neq in Hx, Hy, Hz. by rewrite Hx, Hy, Hz.
Qed.

(** X14.  [process_image] checks the MRD header and uses nothing of it: on
    two headers that are both the parsed XML with a first encoding of
    non-zero matrix size, whatever their fields of view, matrix sizes and
    further encodings, the call does the same and returns the same. *)
Theorem header_is_only_checked caller (g : list Image) config
    (header1 header2 : MrdHeader) w :
  sized header1 → sized header2 →
  process_image caller g config header1 w = process_image caller g config header2 w.
Proof.
  intros [Hs1 Hv1]%sized_passes [Hs2 Hv2]%sized_passes.
  unfold process_image. by rewrite Hs1, Hv1, Hs2, Hv2.
Qed.

End HeaderOnlyChecked.

(** ** The further properties on the sample platform *)

Section SampleStreamRuns.
Import ismrmrd Sample SampleStreams.

Lemma derived_meta_passes_through_witness :
  process_image "process" [magnitude; phase] with_originals header host
  = (originals_run.1, Return (returned originals_run)) ∧
  [magnitude; phase] !! 1 = Some phase ∧
  ∃ img m m',
    returned originals_run
      !! (prepended "process" with_originals (length [magnitude; phase]) + 1)
      = Some (Some img) ∧
    Meta_deserialize (attribute_string phase) = Return m ∧
    attribute_string img = Meta_serialize m' ∧
    (∀ k, k ∉ written_keys → m' !! k = m !! k) ∧
    m' !! "SequenceDescriptionAdditional" = Some (MStr "AFI B1+ Map") ∧
    m' !! "ImageRowDir"
      = Some (default (dir_strings (read_dir (ismrmrd.head phase)))
                      (m !! "ImageRowDir")) ∧
    m' !! "ImageColumnDir"
      = Some (default (dir_strings (phase_dir (ismrmrd.head phase)))
                      (m !! "ImageColumnDir")).
Proof.
  split; [apply (run_returned originals_run); vm_compute; reflexivity|].
  split; [reflexivity|].
  apply (derived_meta_passes_through
           "process" [magnitude; phase] with_originals header host
           originals_run.1 (returned originals_run)).
  - apply (run_returned originals_run). vm_compute. reflexivity.
  - reflexivity.
Defined.

Lemma derived_meta_follows_options_witness :
  process_image "process" [magnitude; phase] with_colormap header host
  = (colormap_run.1, Return (returned colormap_run)) ∧
  [magnitude; phase] !! 0 = Some magnitude ∧
  ∃ img m m' c z y x,
    returned colormap_run
      !! (prepended "process" with_colormap (length [magnitude; phase]) + 0)
      = Some (Some img) ∧
    Meta_deserialize (attribute_string magnitude) = Return m ∧
    attribute_string img = Meta_serialize m' ∧
    np.shape (data magnitude) = [c; z; y; x] ∧
    m' !! "ROI_example"
      = (if bool_decide (options with_colormap = Some (JStr "roi"))
         then Some (MList (create_example_roi [y; x; z; c; length [magnitude; phase]]))
         else m !! "ROI_example") ∧
    m' !! "LUTFileName"
      = (if bool_decide (options with_colormap = Some (JStr "colormap"))
         then Some (MStr "MicroDeltaHotMetal.pal")
         else m !! "LUTFileName").
Proof.
  split; [apply (run_returned colormap_run); vm_compute; reflexivity|].
  split; [reflexivity|].
  apply (derived_meta_follows_options
           "process" [magnitude; phase] with_colormap header host
           colormap_run.1 (returned colormap_run)).
  - apply (run_returned colormap_run). vm_compute. reflexivity.
  - reflexivity.
Defined.

Lemma process_without_acquisitions_witness :
  forallb is_plain mixed = true ∧
  process (Return <$> mixed) plain header host =
    match ecg (waveforms_of mixed) with
    | Raise e => closes host [SendLogging MRD_LOGGING_ERROR (format_exc e); SendClose]
    | Return _ =>
        if Nat.ltb 0 (length (images_of mixed)) then
          match process_image "process" (images_of mixed) plain header host with
          | (w1, Return out) => closes w1 [SendImage out; SendClose]
          | (w1, Raise e) =>
              closes w1 [SendLogging MRD_LOGGING_ERROR (format_exc e); SendClose]
          end
        else closes host [SendClose]
    end.
Proof.
  split; [reflexivity|].
  apply (process_without_acquisitions mixed Sample.plain header host). reflexivity.
Defined.

Lemma stream_error_drops_the_images_witness :
  forallb is_plain mixed = true ∧
  process ((Return <$> mixed) ++ [Raise (LibraryError "ConnectionResetError" "reset")])
          Sample.plain header host
  = closes host
      [SendLogging MRD_LOGGING_ERROR
         (format_exc (LibraryError "ConnectionResetError" "reset"));
       SendClose].
Proof.
  split; [reflexivity|].
  apply (stream_error_drops_the_images
           mixed (LibraryError "ConnectionResetError" "reset") []
           Sample.plain header host).
  reflexivity.
Defined.

Lemma processable_images_are_sent_back_witness :
  processable [magnitude; phase] header host ∧
  ∃ w1 out,
    process_image "process" [magnitude; phase] with_originals header host
    = (w1, Return out) ∧
    process (Return <$> (ItemImage <$> [magnitude; phase])) with_originals header host
    = closes w1 [SendImage out; SendClose] ∧
    length out
    = (if get_json_config_param_bool with_originals "sendoriginal" false
       then 2 else 1) * length [magnitude; phase].
Proof.
  assert (processable [magnitude; phase] header host) as Hok.
  { apply (process_image_needs "process" [magnitude; phase] with_originals header host
             originals_run.1 (returned originals_run)); [done|].
    apply (run_returned originals_run). vm_compute. reflexivity. }
  split; [exact Hok|].
  exact (processable_images_are_sent_back magnitude [phase] with_originals header host Hok).
Defined.

Lemma acquisition_blocks_the_call_witness :
  forallb (fun step => negb (is_none step)) [Return (ItemImage magnitude)] = true ∧
  is_imaging kept || is_flag_set kept ACQ_LAST_IN_SLICE = true ∧
  ∃ msg,
    process ([Return (ItemImage magnitude)] ++
             Return (ItemAcquisition kept) :: [Return (ItemImage phase)])
            Sample.plain header host
    = closes host [SendLogging MRD_LOGGING_ERROR msg; SendClose].
Proof.
  split; [reflexivity|]. split; [reflexivity|].
  apply (acquisition_blocks_the_call
           [Return (ItemImage magnitude)] [Return (ItemImage phase)] kept
           Sample.plain header host); reflexivity.
Defined.

Lemma header_is_only_checked_witness :
  sized header ∧ sized other_header ∧
  process_image "process" [magnitude; phase] Sample.plain header host
  = process_image "process" [magnitude; phase] Sample.plain other_header host.
Proof.
  assert (sized header) as H1 by (eexists _, _; repeat split; discriminate).
  assert (sized other_header) as H2 by (eexists _, _; repeat split; discriminate).
  split; [exact H1|]. split; [exact H2|].
  exact (header_is_only_checked "process" [magnitude; phase] Sample.plain
           header other_header host H1 H2).
Defined.

End SampleStreamRuns.
